(** * action.py: [make_request], a retrying, redirect-following HTTP call

    Shallow embedding of [src/action.py].  The only function with decision
    logic is [make_request]; the network ([opener.open]), the clock
    ([sleep]) and the caller's [headers] dictionary are its effects.

    - [opener.open(request)] is first an abstract transport: a transition
      function on an arbitrary state that either returns a response, raises
      [urllib.error.HTTPError] (the only exception class the code catches),
      or raises something else, which the [try] block lets through.  The
      opener that lines 87-89 build is one such transport: it is modelled
      after urllib's own source ([urllib_open]), on top of an abstract
      protocol handler, and it returns 2xx responses only, every other
      answer being a redirect that it follows itself or an [HTTPError].
    - [sleep] appends the number of seconds to an event log.
    - Python dictionaries are objects: the [headers] argument is a reference
      into a store of dictionaries, so the in-place assignment
      [headers["Content-Type"] = ...] and the re-use of the same object by
      the recursive call are both visible.
    - The [while True] loop together with the recursive call may run for
      ever; the interpreter takes a bound on the number of [opener.open]
      calls and answers [OutOfFuel] when the bound is reached. *)

From Stdlib Require Import ZArith String Ascii List Lia DecimalString.
From stdpp Require Import base gmap strings list.

Local Open Scope string_scope.
Local Open Scope Z_scope.

(** ** Data *)

Definition bytes := list Byte.byte.

(** A dictionary object lives in the store under a reference. *)
Definition ref := positive.
Abbreviation dict := (gmap string string).
Abbreviation store := (gmap ref (gmap string string)).

(** [class HttpError(Exception)]: message, [status_code], [body]. *)
Record HttpError := mkHttpError {
  msg : string;
  err_status_code : option Z;
  err_body : bytes
}.

(** [@dataclass class HttpResponse]. *)
Record HttpResponse := mkHttpResponse {
  status_code : Z;
  headers : dict;
  body : bytes
}.

(** The keyword arguments of [make_request].  [a_headers] is [None] or a
    reference to the caller's dictionary. *)
Record Args := mkArgs {
  a_url : string;
  a_data : option bytes;
  a_headers : option ref;
  a_method : option string;
  a_num_retries : Z;
  a_ssl_compat_mode : bool
}.

(** Defaults of the signature: [num_retries: int = 3],
    [ssl_compat_mode: bool = False]. *)
Definition default_num_retries : Z := 3.
Definition default_ssl_compat_mode : bool := false.

(** The two TLS configurations of lines 73-78. *)
Inductive SSLContext :=
| SSLv23_without_DH   (* ssl.SSLContext(PROTOCOL_SSLv23), ciphers "DEFAULT:!DH" *)
| DefaultContext.     (* ssl.create_default_context() *)

(** [urllib.request.Request(url, data=, headers=, method=)].  The
    constructor reads the items of [headers] once, so the request holds the
    contents of the dictionary at construction time. *)
Record Request := mkRequest {
  r_url : string;
  r_data : option bytes;
  r_headers : dict;
  r_method : option string
}.

(** What one call of [opener.open(request)] (with the reads of [_r.status],
    [_r.headers.items()], [_r.read()], or of [e.status], [e.read()], [str(e)])
    amounts to. *)
Inductive Exchange :=
| Responded (status : Z) (items : list (string * string)) (payload : bytes)
| HTTPError_raised (status : option Z) (payload : bytes) (text : string)
| Other_raised (exn : string).

(** How a call of [make_request] ends. *)
Inductive Exn :=
| Raise_HttpError (e : HttpError)
| Raise_KeyError (key : string)
| Raise_other (exn : string).

Inductive Completion :=
| Return (r : HttpResponse)
| Raise (e : Exn)
| OutOfFuel.

(** Observable events, in program order. *)
Inductive Event :=
| EvCall (a : Args)                         (* entry of make_request *)
| EvOpen (ctx : SSLContext) (rq : Request)  (* opener.open(request) *)
| EvSleep (seconds : Z).                    (* sleep(seconds) *)

(** ** Pure helpers *)

(** [str(n)] for a Python [int]. *)
Definition str_of_int (n : Z) : string := NilZero.string_of_int (Z.to_int n).

(** [{k: v for k, v in items}]: a later item overrides an earlier one. *)
Definition dict_of_items (items : list (string * string)) : dict :=
  fold_left (fun d kv => <[kv.1 := kv.2]> d) items ∅.

Definition content_type_default : string := "application/json; charset=utf8".

(** Line 110: [e.status == 429 or (e.status >= 500 and e.status < 600)]. *)
Definition is_retryable (s : Z) : bool :=
  (s =? 429) || ((500 <=? s) && (s <? 600)).

(** Line 124: [e.status >= 400 and e.status < 500]. *)
Definition is_client_error (s : Z) : bool := (400 <=? s) && (s <? 500).

(** Line 144: [response.status_code >= 300 and response.status_code < 400]. *)
Definition is_redirect (s : Z) : bool := (300 <=? s) && (s <? 400).

(** Lines 126-129: the message of a 4xx error. *)
Definition client_error_msg (s : Z) (url : string) : string :=
  let err_msg := "HTTP Error " +:+ str_of_int s in
  if s =? 404 then err_msg +:+ " " +:+ url else err_msg.

(** [needle in haystack] for strings. *)
Definition contains (haystack needle : string) : Prop :=
  exists pre post, haystack = pre +:+ needle +:+ post.

(** ASCII lower-casing, to speak about header names up to case. *)
Definition lower_ascii (c : ascii) : ascii :=
  let n := nat_of_ascii c in
  if ((65 <=? n) && (n <=? 90))%nat then ascii_of_nat (n + 32) else c.

Fixpoint lower (s : string) : string :=
  match s with
  | EmptyString => EmptyString
  | String c s' => String (lower_ascii c) (lower s')
  end.

(** The dictionary has a key equal to [k] up to case. *)
Definition has_key_nocase (d : dict) (k : string) : Prop :=
  exists k' v, d !! k' = Some v /\ lower k' = lower k.

(** ** The world: store, transport state, event log *)

Section MakeRequest.

Context {T : Type}.

(** One exchange with the server: the transport state, the TLS context the
    opener was built with and the request give the outcome and the next
    transport state. *)
Variable opener_open : T -> SSLContext -> Request -> Exchange * T.

Record World := mkWorld {
  heap : store;
  net : T;
  log : list Event
}.

Definition emit (ev : Event) (w : World) : World :=
  mkWorld (heap w) (net w) (log w ++ [ev]).

Definition deref (w : World) (l : ref) : dict := default ∅ (heap w !! l).

Definition assign (l : ref) (d : dict) (w : World) : World :=
  mkWorld (<[l := d]> (heap w)) (net w) (log w).

(** [headers = {}]: a new dictionary object. *)
Definition new_dict (w : World) : ref * World :=
  let l := fresh (dom (heap w)) in (l, assign l ∅ w).

(** What lines 67-89 leave in the local variables that the loop reads. *)
Record Frame := mkFrame {
  f_url : string;
  f_data : option bytes;
  f_headers : ref;
  f_method : option string;
  f_num_retries : Z;
  f_ssl_context : SSLContext;
  f_request : Request
}.

(** Lines 73-78. *)
Definition ssl_context_for (ssl_compat_mode : bool) : SSLContext :=
  if ssl_compat_mode then SSLv23_without_DH else DefaultContext.

(** Lines 67-89. *)
Definition prologue (a : Args) (w : World) : Frame * World :=
  let w := emit (EvCall a) w in
  (* if headers is None: headers = {} *)
  let '(hd, w) := match a_headers a with
                  | None => new_dict w
                  | Some l => (l, w)
                  end in
  (* if "Content-Type" not in headers: headers["Content-Type"] = ... *)
  let w := match deref w hd !! "Content-Type" with
           | None => assign hd (<["Content-Type" := content_type_default]> (deref w hd)) w
           | Some _ => w
           end in
  let ssl_context := ssl_context_for (a_ssl_compat_mode a) in
  let request := mkRequest (a_url a) (a_data a) (deref w hd) (a_method a) in
  (mkFrame (a_url a) (a_data a) hd (a_method a) (a_num_retries a)
           ssl_context request, w).

(** Lines 146-151: the arguments of the recursive call.  [num_retries] and
    [ssl_compat_mode] are not passed, so the callee takes the defaults. *)
Definition redirect_args (f : Frame) (location : string) : Args :=
  mkArgs location (f_data f) (Some (f_headers f)) (f_method f)
         default_num_retries default_ssl_compat_mode.

(** Lines 100-142: the [except urllib.error.HTTPError as e] block, up to the
    decision to go round the loop again. *)
Inductive Handler :=
| Retry (retry_count : Z) (seconds : Z)
| Fail (e : HttpError).

Definition on_http_error (f : Frame) (retry_count : Z)
    (status : option Z) (payload : bytes) (text : string) : Handler :=
  match status with
  | None => Fail (mkHttpError ("Unknown HTTP error: " +:+ text) None payload)
  | Some s =>
    if is_retryable s then
      let retry_count := retry_count + 1 in
      if retry_count >? f_num_retries f then
        Fail (mkHttpError "Retries Exceeded" (Some s) payload)
      else
        let wait_for := 2 ^ retry_count in
        Retry retry_count (wait_for * 60)
    else if is_client_error s then
      Fail (mkHttpError (client_error_msg s (f_url f)) (Some s) payload)
    else
      Fail (mkHttpError ("Unknown HTTP Error " +:+ str_of_int s) (Some s) payload)
  end.

(** Lines 91-152: the [while True] loop.  [fuel] bounds the number of calls
    of [opener.open], over all redirect hops. *)
Fixpoint loop (fuel : nat) (f : Frame) (retry_count : Z) (w : World)
    : Completion * World :=
  match fuel with
  | O => (OutOfFuel, w)
  | S fuel =>
    let '(x, n) := opener_open (net w) (f_ssl_context f) (f_request f) in
    let w := mkWorld (heap w) n
                     (log w ++ [EvOpen (f_ssl_context f) (f_request f)]) in
    match x with
    | Responded status items payload =>
      let response := mkHttpResponse status (dict_of_items items) payload in
      if is_redirect (status_code response) then
        match headers response !! "Location" with
        | None => (Raise (Raise_KeyError "Location"), w)
        | Some location =>
          let '(f', w) := prologue (redirect_args f location) w in
          loop fuel f' 0 w
        end
      else (Return response, w)
    | HTTPError_raised status payload text =>
      match on_http_error f retry_count status payload text with
      | Retry retry_count seconds =>
        loop fuel f retry_count (emit (EvSleep seconds) w)
      | Fail e => (Raise (Raise_HttpError e), w)
      end
    | Other_raised exn => (Raise (Raise_other exn), w)
    end
  end.

Definition make_request (fuel : nat) (a : Args) (w : World)
    : Completion * World :=
  let '(f, w) := prologue a w in loop fuel f 0 w.


(** The world after one call of [opener.open] from frame [f]. *)
Definition sent (f : Frame) (n : T) (w : World) : World :=
  mkWorld (heap w) n (log w ++ [EvOpen (f_ssl_context f) (f_request f)]).

(** ** Reading the event log *)

Fixpoint sleeps (evs : list Event) : list Z :=
  match evs with
  | [] => []
  | EvSleep s :: evs => s :: sleeps evs
  | _ :: evs => sleeps evs
  end.

Fixpoint calls (evs : list Event) : list Args :=
  match evs with
  | [] => []
  | EvCall a :: evs => a :: calls evs
  | _ :: evs => calls evs
  end.

Fixpoint requests (evs : list Event) : list (SSLContext * Request) :=
  match evs with
  | [] => []
  | EvOpen c rq :: evs => (c, rq) :: requests evs
  | _ :: evs => requests evs
  end.

Definition dispatches (evs : list Event) : nat := length (requests evs).

(** The transport state after [i] exchanges of the same request. *)
Fixpoint after_attempts (ctx : SSLContext) (rq : Request) (i : nat) (t : T) : T :=
  match i with
  | O => t
  | S i => after_attempts ctx rq i (opener_open t ctx rq).2
  end.

(** The opener raised an [HTTPError] whose status is 429 or 5xx. *)
Definition retryable_failure (x : Exchange) : Prop :=
  match x with
  | HTTPError_raised (Some s) _ _ => is_retryable s = true
  | _ => False
  end.

(** The opener returned a 3xx response that has a [Location] item. *)
Definition followable_redirect (x : Exchange) : Prop :=
  match x with
  | Responded status items _ =>
      is_redirect status = true /\ is_Some (dict_of_items items !! "Location")
  | _ => False
  end.

(** What every event of a redirect hop has in common with the call that
    started it: the dictionary object [hd] with contents [d], the body and
    the method; the callee's budget and TLS mode are the defaults. *)
Definition hop_event (hd : ref) (d : dict) (data : option bytes)
    (method : option string) (ev : Event) : Prop :=
  match ev with
  | EvCall a =>
      a_data a = data /\ a_headers a = Some hd /\ a_method a = method /\
      a_num_retries a = default_num_retries /\
      a_ssl_compat_mode a = default_ssl_compat_mode
  | EvOpen _ rq => r_data rq = data /\ r_headers rq = d /\ r_method rq = method
  | EvSleep _ => True
  end.

(** The events of [k] failed attempts in a row, the counter starting at
    [retry_count]: a dispatch, then a wait of [2 ** retry_count * 60] seconds
    with the incremented counter. *)
Fixpoint retry_events (f : Frame) (retry_count : Z) (k : nat) : list Event :=
  match k with
  | O => []
  | S k => EvOpen (f_ssl_context f) (f_request f)
           :: EvSleep (2 ^ (retry_count + 1) * 60)
           :: retry_events f (retry_count + 1) k
  end.

End MakeRequest.

Arguments prologue {T} a w : simpl never.
Arguments on_http_error f retry_count status payload text : simpl never.

(** ** Servers used in the examples

    A scripted server answers the [n]-th exchange with the [n]-th entry of
    the script and with [otherwise] once the script is used up; its state is
    the number of exchanges so far. *)

Definition scripted (script : list Exchange) (otherwise : Exchange)
    : nat -> SSLContext -> Request -> Exchange * nat :=
  fun n _ _ => (nth n script otherwise, S n).

Definition world0 (h : store) : @World nat := mkWorld h 0%nat [].

Definition http_error (s : Z) : Exchange :=
  HTTPError_raised (Some s) [] ("HTTP Error " +:+ str_of_int s).

Definition url_x : string := "https://x.example/a".
Definition url_y : string := "https://y.example/b".
Definition redirect_to (location : string) : Exchange :=
  Responded 302 [("Location", location)] [].
Definition ok_response : Exchange :=
  Responded 200 [("Content-Type", "application/json")] [Byte.x7b; Byte.x7d].

Definition always_429 := scripted [] (http_error 429).
Definition flaky_then_ok := scripted [http_error 503; http_error 503] ok_response.
Definition not_found := scripted [] (http_error 404).
Definition statusless :=
  scripted [] (HTTPError_raised None [] "HTTP Error None: ").
Definition refusing :=
  scripted [] (Other_raised "URLError: [Errno 111] Connection refused").
Definition moved_then_ok := scripted [redirect_to url_y] ok_response.

(** [make_request(url=url_x, headers=..., num_retries=..., ssl_compat_mode=...)]. *)
Definition get_x (headers : option ref) (num_retries : Z)
    (ssl_compat_mode : bool) : Args :=
  mkArgs url_x None headers None num_retries ssl_compat_mode.

(** A POST with a body, no retry allowed, in SSL compatibility mode. *)
Definition post_x : Args :=
  mkArgs url_x (Some [Byte.x7b; Byte.x7d]) None (Some "POST") 0 true.

(** The caller's dictionary, under reference 1. *)
Definition lowercase_headers : dict := {["content-type" := "text/plain"]}.
Definition explicit_headers : dict := {["Content-Type" := "text/plain"]}.
Definition caller_heap (d : dict) : store := {[1%positive := d]}.

(** ** Further vocabulary for the properties *)

(** The seconds slept in all, over a list of events. *)
Definition total_wait (evs : list Event) : Z := fold_right Z.add 0 (sleeps evs).

(** The four shapes of [HttpError] that lines 103-142 can raise. *)
Definition raised_by_handler (e : HttpError) : Prop :=
  match err_status_code e with
  | None => exists text, msg e = "Unknown HTTP error: " +:+ text
  | Some s =>
      if is_retryable s then msg e = "Retries Exceeded"
      else if is_client_error s then exists url, msg e = client_error_msg s url
      else msg e = "Unknown HTTP Error " +:+ str_of_int s
  end.

(** The [headers] argument is [None] or a dictionary that exists. *)
Definition headers_in_store {T : Type} (a : Args) (w : @World T) : Prop :=
  match a_headers a with
  | None => True
  | Some l => is_Some (heap w !! l)
  end.

(** A server whose [n]-th answer is a redirect while [n < hops], and 200
    afterwards. *)
Definition redirecting (hops : nat)
    : nat -> SSLContext -> Request -> Exchange * nat :=
  fun n _ _ => (if (n <? hops)%nat then redirect_to url_y else ok_response, S n).

Definition forbidden := scripted [] (http_error 403).
Definition always_ok := scripted [] ok_response.

(** ** The opener of lines 87-89

    [urllib.request.build_opener(urllib.request.HTTPSHandler(...))] adds the
    HTTPS handler to urllib's default handlers, among them
    [HTTPErrorProcessor], [HTTPRedirectHandler] and
    [HTTPDefaultErrorHandler].  What follows is [OpenerDirector.open] with
    these handlers, after [urllib/request.py] of Python 3.11; numbers in
    square brackets are lines of that file.  Below the handlers is the
    protocol handler ([do_open] and http.client), which stays abstract.
    [Request] itself raises [ValueError] for a url in which it finds no
    scheme [374-377]; the calls considered here are those whose url has
    one. *)

(** The request as the protocol handler gets it.  The header names are
    those given to [Request()]; what [Request] does to them is the subject
    of the next section. *)
Record Sent := mkSent {
  s_url : string;
  s_method : string;
  s_headers : dict;
  s_data : option bytes
}.

(** What the protocol handler gives back: a response, or an exception
    ([URLError], [ssl.SSLError], [http.client.BadStatusLine] for a status
    line that http.client does not take, ...). *)
Inductive Reply :=
| Answered (code : Z) (reason : string) (items : list (string * string))
           (payload : bytes)
| Failed (exn : string).

(** [Request.get_method] [382-385]; [if method:] at [334] leaves an empty
    method unset. *)
Definition get_method (method : option string) (data : option bytes) : string :=
  let default_method := match data with Some _ => "POST" | None => "GET" end in
  match method with
  | Some m => if String.eqb m "" then default_method else m
  | None => default_method
  end.

Definition to_sent (rq : Request) : Sent :=
  mkSent (r_url rq) (get_method (r_method rq) (r_data rq)) (r_headers rq)
         (r_data rq).

(** The headers of a response are a message: a name is looked up without
    regard to case and the first item wins.  [name] is in lower case. *)
Fixpoint message_get (name : string) (items : list (string * string))
    : option string :=
  match items with
  | [] => None
  | (k, v) :: items =>
      if String.eqb (lower k) name then Some v else message_get name items
  end.

(** [694-699]. *)
Definition redirect_header (items : list (string * string)) : option string :=
  match message_get "location" items with
  | Some newurl => Some newurl
  | None => message_get "uri" items
  end.

(** [751]: the codes that [http_error_302] is registered for. *)
Definition has_redirect_handler (code : Z) : bool :=
  (code =? 301) || (code =? 302) || (code =? 303) || (code =? 307)
  || (code =? 308).

(** [664-665]: the condition under which [redirect_request] builds a
    request. *)
Definition may_follow (code : Z) (m : string) : bool :=
  (has_redirect_handler code && (String.eqb m "GET" || String.eqb m "HEAD"))
  || (((code =? 301) || (code =? 302) || (code =? 303)) && String.eqb m "POST").

(** [679-681]. *)
Definition redirected_headers (h : dict) : dict :=
  filter (fun kv => lower kv.1 <> "content-length" /\ lower kv.1 <> "content-type") h.

(** [702-723] and [677]: the target of the redirect, worked out from the
    url of the request and the value of the header by [urlparse], [quote]
    and [urljoin], or a refusal of its scheme.  The url functions are a
    parameter of the model. *)
Inductive Redirection :=
| NotAllowed
| Target (newurl : string).

(** [648-651]. *)
Definition max_repeats : nat := 4.
Definition max_redirections : nat := 10.

(** [req.redirect_dict]: how often each url was redirected to. *)
Definition visits (visited : gmap string nat) (url : string) : nat :=
  default 0%nat (visited !! url).

(** How many more redirects [736-737] can let through. *)
Definition room (visited : gmap string nat) : nat :=
  (max_repeats * (max_redirections - size visited)
   + map_fold (fun _ c acc => (max_repeats - c) + acc) 0 visited)%nat.

(** [raise HTTPError(url, code, msg, hdrs, fp)]: [e.status] is [code],
    [e.read()] the body of the response, [str(e)] as below. *)
Definition HTTPError (code : Z) (msg : string) (payload : bytes) : Exchange :=
  HTTPError_raised (Some code) payload
    ("HTTP Error " +:+ str_of_int code +:+ ": " +:+ msg).

Definition newline : string := String (ascii_of_nat 10) EmptyString.

(** [753-755]. *)
Definition inf_msg : string :=
  "The HTTP server returned a redirect error that would lead to an infinite loop."
  +:+ newline +:+ "The last 30x error message was:" +:+ newline.

Section Opener.

Context {Srv : Type}.
Variable send : Srv -> SSLContext -> Sent -> Reply * Srv.
Variable resolve : string -> string -> Redirection.

(** [OpenerDirector.open] for one request: the exchange, then
    [HTTPErrorProcessor.http_response] [628-637], [http_error_302]
    [691-749] for the five redirect codes and [http_error_default] [642-643]
    for what is left.  The recursion is [self.parent.open(new)] at [749];
    [fuel] bounds its depth (see [urllib_open]).  [visited] is the
    [redirect_dict] that the request and all requests made from it share;
    an empty one stands for a request that has none yet. *)
Fixpoint director_open (fuel : nat) (ctx : SSLContext) (rq : Sent) (s : Srv)
    (visited : gmap string nat) : Exchange * (Srv * gmap string nat) :=
  match fuel with
  | O => (Other_raised "RecursionError", (s, visited))
  | S fuel =>
    let '(reply, s) := send s ctx rq in
    match reply with
    | Failed exn => (Other_raised exn, (s, visited))
    | Answered code msg items payload =>
      if (200 <=? code) && (code <? 300) then
        (Responded code items payload, (s, visited))
      else if negb (has_redirect_handler code) then
        (HTTPError code msg payload, (s, visited))
      else
        match redirect_header items with
        | None => (HTTPError code msg payload, (s, visited))
        | Some value =>
          match resolve (s_url rq) value with
          | NotAllowed =>
            (HTTPError code
               (msg +:+ " - Redirection to url '" +:+ value
                    +:+ "' is not allowed") payload, (s, visited))
          | Target newurl =>
            if negb (may_follow code (s_method rq)) then
              (HTTPError code msg payload, (s, visited))
            else if (max_repeats <=? visits visited newurl)%nat
                    || (max_redirections <=? size visited)%nat then
              (HTTPError code (inf_msg +:+ msg) payload, (s, visited))
            else
              director_open fuel ctx
                (mkSent newurl "GET" (redirected_headers (s_headers rq)) None)
                s (<[newurl := S (visits visited newurl)]> visited)
          end
        end
    end
  end.

(** [opener.open(request)] as [make_request] calls it.  The state is that
    of the server together with the [redirect_dict] of [request], which
    outlives the call since the loop passes the same object again.
    [room visited + 1] exchanges are as many as the ceiling of [736-737]
    allows. *)
Definition urllib_open (t : Srv * gmap string nat) (ctx : SSLContext)
    (rq : Request) : Exchange * (Srv * gmap string nat) :=
  director_open (S (room t.2)) ctx (to_sent rq) t.1 t.2.

End Opener.

(** ** Header names on the wire

    A Python dictionary keeps its items in the order of insertion, and
    [Request] reads them in that order: here the dictionary is the list of
    its items, with distinct keys. *)

Definition upper_ascii (c : ascii) : ascii :=
  let n := nat_of_ascii c in
  if ((97 <=? n) && (n <=? 122))%nat then ascii_of_nat (n - 32) else c.

(** [str.capitalize], on ASCII. *)
Definition capitalize (s : string) : string :=
  match s with
  | EmptyString => EmptyString
  | String c s' => String (upper_ascii c) (lower s')
  end.

Abbreviation odict := (list (string * string)).

(** [d.get(k)]. *)
Fixpoint odict_get (k : string) (d : odict) : option string :=
  match d with
  | [] => None
  | (k', v) :: d => if String.eqb k' k then Some v else odict_get k d
  end.

(** [d[k] = v]: a key that is there keeps its place. *)
Fixpoint odict_set (k v : string) (d : odict) : odict :=
  match d with
  | [] => [(k, v)]
  | (k', v') :: d =>
      if String.eqb k' k then (k', v) :: d else (k', v') :: odict_set k v d
  end.

(** Lines 67-71 of action.py, on the dictionary with its order. *)
Definition set_default_content_type (headers : option odict) : odict :=
  let headers := match headers with Some d => d | None => [] end in
  match odict_get "Content-Type" headers with
  | None => odict_set "Content-Type" content_type_default headers
  | Some _ => headers
  end.

(** [Request.__init__] [328-329] with [add_header] [401-403]: the headers
    that the request holds. *)
Definition Request_headers (headers : odict) : odict :=
  fold_left (fun h kv => odict_set (capitalize kv.1) kv.2 h) headers [].

(** The value that goes out under [Content-Type]: [do_open] sends the
    headers of the request, its name for this one being [Content-type]. *)
Definition transmitted_content_type (headers : option odict) : option string :=
  odict_get "Content-type" (Request_headers (set_default_content_type headers)).

(** ** Sites used in the examples

    A site answers by the url of the request and keeps the list of the
    requests it got, each with the TLS context it came through. *)

Definition site (answer : string -> Reply)
    : list (SSLContext * Sent) -> SSLContext -> Sent
      -> Reply * list (SSLContext * Sent) :=
  fun seen ctx rq => (answer (s_url rq), (seen ++ [(ctx, rq)])%list).

(** [urljoin] of an absolute url is that url. *)
Definition absolute : string -> string -> Redirection :=
  fun _ value => Target value.

Definition browsing (h : store)
    : @World (list (SSLContext * Sent) * gmap string nat) :=
  mkWorld h ([], ∅) [].

Definition ok_reply : Reply :=
  Answered 200 "OK" [("Content-Type", "application/json")] [Byte.x7b; Byte.x7d].

(** [url_x] has moved to [url_y]. *)
Definition moved (url : string) : Reply :=
  if String.eqb url url_x then Answered 302 "Found" [("Location", url_y)] []
  else ok_reply.

(** The same, told by a [URI] header. *)
Definition moved_by_uri (url : string) : Reply :=
  if String.eqb url url_x then Answered 302 "Found" [("URI", url_y)] []
  else ok_reply.


Definition found_nowhere (url : string) : Reply :=
  Answered 302 "Found" [("Server", "nginx")] [].

Definition processing (url : string) : Reply :=
  Answered 102 "Processing" [] [].

(** * Properties *)

Section Properties.

Context {T : Type}.
Variable opener_open : T -> SSLContext -> Request -> Exchange * T.

Abbreviation loop' := (loop opener_open).
Abbreviation make_request' := (make_request opener_open).

(** ** One iteration of the loop, by kind of exchange *)

Lemma loop_return fuel f rc (w : @World T) status items payload n :
  opener_open (net w) (f_ssl_context f) (f_request f)
    = (Responded status items payload, n) ->
  is_redirect status = false ->
  loop' (S fuel) f rc w
    = (Return (mkHttpResponse status (dict_of_items items) payload), sent f n w).
Proof. intros Hx Hr. simpl. rewrite Hx. simpl. rewrite Hr. reflexivity. Qed.

Lemma loop_redirect fuel f rc (w : @World T) status items payload n location :
  opener_open (net w) (f_ssl_context f) (f_request f)
    = (Responded status items payload, n) ->
  is_redirect status = true ->
  dict_of_items items !! "Location" = Some location ->
  loop' (S fuel) f rc w
    = make_request' fuel (redirect_args f location) (sent f n w).
Proof.
  intros Hx Hr Hl. simpl. rewrite Hx. simpl. rewrite Hr, Hl. reflexivity.
Qed.

Lemma loop_no_location fuel f rc (w : @World T) status items payload n :
  opener_open (net w) (f_ssl_context f) (f_request f)
    = (Responded status items payload, n) ->
  is_redirect status = true ->
  dict_of_items items !! "Location" = None ->
  loop' (S fuel) f rc w = (Raise (Raise_KeyError "Location"), sent f n w).
Proof.
  intros Hx Hr Hl. simpl. rewrite Hx. simpl. rewrite Hr, Hl. reflexivity.
Qed.

Lemma loop_http_error fuel f rc (w : @World T) status payload text n :
  opener_open (net w) (f_ssl_context f) (f_request f)
    = (HTTPError_raised status payload text, n) ->
  loop' (S fuel) f rc w
    = match on_http_error f rc status payload text with
      | Retry rc' seconds => loop' fuel f rc' (emit (EvSleep seconds) (sent f n w))
      | Fail e => (Raise (Raise_HttpError e), sent f n w)
      end.
Proof. intros Hx. simpl. rewrite Hx. reflexivity. Qed.

Lemma loop_other fuel f rc (w : @World T) exn n :
  opener_open (net w) (f_ssl_context f) (f_request f) = (Other_raised exn, n) ->
  loop' (S fuel) f rc w = (Raise (Raise_other exn), sent f n w).
Proof. intros Hx. simpl. rewrite Hx. reflexivity. Qed.

(** ** The prologue *)

Lemma prologue_frame a (w : @World T) :
  let f := (prologue a w).1 in
  f_url f = a_url a /\ f_data f = a_data a /\ f_method f = a_method a /\
  f_num_retries f = a_num_retries a /\
  f_ssl_context f = ssl_context_for (a_ssl_compat_mode a) /\
  r_url (f_request f) = a_url a /\ r_data (f_request f) = a_data a /\
  r_method (f_request f) = a_method a.
Proof.
  unfold prologue. destruct (a_headers a); simpl;
    repeat match goal with |- context [match ?x with _ => _ end] => destruct x end;
    simpl; repeat split; reflexivity.
Qed.

Lemma prologue_present a (w : @World T) l d v :
  a_headers a = Some l -> heap w !! l = Some d -> d !! "Content-Type" = Some v ->
  prologue a w
    = (mkFrame (a_url a) (a_data a) l (a_method a) (a_num_retries a)
               (ssl_context_for (a_ssl_compat_mode a))
               (mkRequest (a_url a) (a_data a) d (a_method a)),
       emit (EvCall a) w).
Proof.
  intros Ha Hl Hv. unfold prologue, deref. rewrite Ha. simpl.
  rewrite Hl. simpl. rewrite Hv. simpl. rewrite Hl. reflexivity.
Qed.

Lemma prologue_absent a (w : @World T) l d :
  a_headers a = Some l -> heap w !! l = Some d -> d !! "Content-Type" = None ->
  let d' := <["Content-Type" := content_type_default]> d in
  prologue a w
    = (mkFrame (a_url a) (a_data a) l (a_method a) (a_num_retries a)
               (ssl_context_for (a_ssl_compat_mode a))
               (mkRequest (a_url a) (a_data a) d' (a_method a)),
       mkWorld (<[l := d']> (heap w)) (net w) (log w ++ [EvCall a])).
Proof.
  intros Ha Hl Hv. unfold prologue, deref. rewrite Ha. simpl.
  rewrite Hl. simpl. rewrite Hv. simpl. rewrite lookup_insert_eq. reflexivity.
Qed.

Lemma prologue_none a (w : @World T) :
  a_headers a = None ->
  let l := fresh (dom (heap w)) in
  let d' : dict := {["Content-Type" := content_type_default]} in
  prologue a w
    = (mkFrame (a_url a) (a_data a) l (a_method a) (a_num_retries a)
               (ssl_context_for (a_ssl_compat_mode a))
               (mkRequest (a_url a) (a_data a) d' (a_method a)),
       mkWorld (<[l := d']> (heap w)) (net w) (log w ++ [EvCall a])).
Proof.
  intros Ha. unfold prologue, new_dict, deref. rewrite Ha. simpl.
  rewrite lookup_insert_eq. simpl. rewrite lookup_empty. simpl.
  unfold assign, emit. simpl.
  rewrite lookup_insert_eq, insert_insert_eq, insert_empty. reflexivity.
Qed.

(** ** Fuel *)

Lemma loop_fuel_mono fuel : forall f rc (w : @World T) k,
  (loop' fuel f rc w).1 <> OutOfFuel ->
  loop' (fuel + k) f rc w = loop' fuel f rc w.
Proof.
  induction fuel as [|fuel IH]; intros f rc w k Hne.
  - simpl in Hne. congruence.
  - change (S fuel + k)%nat with (S (fuel + k)).
    destruct (opener_open (net w) (f_ssl_context f) (f_request f))
      as [x n] eqn:Hx.
    destruct x as [status items payload|status payload text|exn].
    + destruct (is_redirect status) eqn:Hr.
      * destruct (dict_of_items items !! "Location") as [location|] eqn:Hl.
        -- rewrite (loop_redirect fuel _ _ _ _ _ _ _ _ Hx Hr Hl) in Hne |- *.
           rewrite (loop_redirect (fuel + k) _ _ _ _ _ _ _ _ Hx Hr Hl).
           unfold make_request in Hne |- *.
           destruct (prologue _ (sent f n w)) as [f' w']. apply IH, Hne.
        -- rewrite !(loop_no_location _ _ _ _ _ _ _ _ Hx Hr Hl). reflexivity.
      * rewrite !(loop_return _ _ _ _ _ _ _ _ Hx Hr). reflexivity.
    + rewrite (loop_http_error fuel _ _ _ _ _ _ _ Hx) in Hne |- *.
      rewrite (loop_http_error (fuel + k) _ _ _ _ _ _ _ Hx).
      destruct (on_http_error f rc status payload text); [|reflexivity].
      apply IH, Hne.
    + rewrite !(loop_other _ _ _ _ _ _ Hx). reflexivity.
Qed.

Lemma make_request_fuel_mono fuel a (w : @World T) k :
  (make_request' fuel a w).1 <> OutOfFuel ->
  make_request' (fuel + k) a w = make_request' fuel a w.
Proof.
  unfold make_request. destruct (prologue a w) as [f w1]. apply loop_fuel_mono.
Qed.

(** ** A run of retryable failures *)

Lemma loop_retries k : forall f rc (w : @World T) fuel,
  rc + Z.of_nat k <= f_num_retries f ->
  (forall i, (i < k)%nat ->
     retryable_failure
       (opener_open (after_attempts opener_open (f_ssl_context f) (f_request f)
                       i (net w))
                    (f_ssl_context f) (f_request f)).1) ->
  loop' (k + fuel) f rc w
    = loop' fuel f (rc + Z.of_nat k)
        (mkWorld (heap w)
           (after_attempts opener_open (f_ssl_context f) (f_request f) k (net w))
           (log w ++ retry_events f rc k)).
Proof.
  induction k as [|k IH]; intros f rc w fuel Hle Hall.
  - simpl. rewrite Z.add_0_r, app_nil_r. destruct w; reflexivity.
  - pose proof (Hall 0%nat ltac:(lia)) as H0. simpl in H0.
    destruct (opener_open (net w) (f_ssl_context f) (f_request f))
      as [x n] eqn:Hx.
    destruct x as [| [s|] payload text |]; simpl in H0; try contradiction.
    change (S k + fuel)%nat with (S (k + fuel)).
    rewrite (loop_http_error _ _ _ _ _ _ _ _ Hx).
    unfold on_http_error. rewrite H0.
    replace (rc + 1 >? f_num_retries f) with false
      by (symmetry; rewrite Z.gtb_ltb; apply Z.ltb_ge; lia).
    rewrite IH.
    + simpl. rewrite Hx. simpl. f_equal; [lia|].
      rewrite <- !app_assoc. reflexivity.
    + lia.
    + intros i Hi. specialize (Hall (S i) ltac:(lia)). simpl in Hall.
      rewrite Hx in Hall. exact Hall.
Qed.

(** ** What a call leaves unchanged

    Once the dictionary holds a ["Content-Type"] key, nothing in the loop or
    in later hops writes to the store, and every later call and request is
    built from the same dictionary object, body and method. *)

Lemma loop_frame fuel : forall f rc (w : @World T) d,
  heap w !! f_headers f = Some d ->
  is_Some (d !! "Content-Type") ->
  r_data (f_request f) = f_data f ->
  r_headers (f_request f) = d ->
  r_method (f_request f) = f_method f ->
  heap (loop' fuel f rc w).2 = heap w /\
  exists evs : list Event, log (loop' fuel f rc w).2 = (log w ++ evs)%list /\
    Forall (hop_event (f_headers f) d (f_data f) (f_method f)) evs.
Proof.
  induction fuel as [|fuel IH]; intros f rc w d Hd [v Hv] Hdata Hhd Hm.
  - simpl. split; [reflexivity|]. exists []. rewrite app_nil_r. auto.
  - assert (Hopen : hop_event (f_headers f) d (f_data f) (f_method f)
                      (EvOpen (f_ssl_context f) (f_request f)))
      by (simpl; auto).
    destruct (opener_open (net w) (f_ssl_context f) (f_request f))
      as [x n] eqn:Hx.
    destruct x as [status items payload|status payload text|exn].
    + destruct (is_redirect status) eqn:Hr.
      * destruct (dict_of_items items !! "Location") as [location|] eqn:Hl.
        -- rewrite (loop_redirect _ _ _ _ _ _ _ _ _ Hx Hr Hl).
           unfold make_request.
           rewrite (prologue_present (redirect_args f location) (sent f n w)
                      (f_headers f) d v eq_refl Hd Hv).
           match goal with |- context [loop' fuel ?f' 0 ?w'] =>
             destruct (IH f' 0 w' d Hd (ex_intro _ v Hv) eq_refl eq_refl eq_refl)
               as [Hheap [evs [Hlog Hall]]]
           end.
           split; [exact Hheap|].
           exists (EvOpen (f_ssl_context f) (f_request f)
                     :: EvCall (redirect_args f location) :: evs).
           split.
           ++ rewrite Hlog. simpl. rewrite <- !app_assoc. reflexivity.
           ++ constructor; [exact Hopen|]. constructor; [|exact Hall].
              simpl. auto.
        -- rewrite (loop_no_location _ _ _ _ _ _ _ _ Hx Hr Hl).
           split; [reflexivity|]. eexists; split; [reflexivity|]. auto.
      * rewrite (loop_return _ _ _ _ _ _ _ _ Hx Hr).
        split; [reflexivity|]. eexists; split; [reflexivity|]. auto.
    + rewrite (loop_http_error _ _ _ _ _ _ _ _ Hx).
      destruct (on_http_error f rc status payload text) as [rc' secs|e].
      * destruct (IH f rc' (emit (EvSleep secs) (sent f n w)) d Hd
                    (ex_intro _ v Hv) Hdata Hhd Hm)
          as [Hheap [evs [Hlog Hall]]].
        split; [exact Hheap|].
        exists (EvOpen (f_ssl_context f) (f_request f) :: EvSleep secs :: evs).
        split.
        -- rewrite Hlog. simpl. rewrite <- !app_assoc. reflexivity.
        -- constructor; [exact Hopen|]. constructor; [exact I|exact Hall].
      * split; [reflexivity|]. eexists; split; [reflexivity|]. auto.
    + rewrite (loop_other _ _ _ _ _ _ Hx).
      split; [reflexivity|]. eexists; split; [reflexivity|]. auto.
Qed.

Lemma prologue_world a (w : @World T) :
  net (prologue a w).2 = net w /\ log (prologue a w).2 = (log w ++ [EvCall a])%list.
Proof.
  unfold prologue. destruct (a_headers a); simpl;
    match goal with |- context [match ?x with _ => _ end] => destruct x end;
    simpl; split; reflexivity.
Qed.

(** ** Counting events *)

Lemma requests_app (xs ys : list Event) :
  requests (xs ++ ys) = (requests xs ++ requests ys)%list.
Proof.
  induction xs as [|[] xs IH]; simpl; rewrite ?IH; reflexivity.
Qed.

Lemma sleeps_app (xs ys : list Event) :
  sleeps (xs ++ ys) = (sleeps xs ++ sleeps ys)%list.
Proof.
  induction xs as [|[] xs IH]; simpl; rewrite ?IH; reflexivity.
Qed.


Lemma dispatches_app (xs ys : list Event) :
  dispatches (xs ++ ys) = (dispatches xs + dispatches ys)%nat.
Proof. unfold dispatches. rewrite requests_app. apply length_app. Qed.

Lemma dispatches_retry_events f k : forall rc,
  dispatches (retry_events f rc k) = k.
Proof.
  unfold dispatches. induction k as [|k IH]; intros rc; simpl;
    [reflexivity | rewrite IH; reflexivity].
Qed.

Lemma sleeps_retry_events f k : forall rc,
  sleeps (retry_events f rc k)
    = map (fun i => 2 ^ (rc + Z.of_nat i) * 60) (seq 1 k).
Proof.
  induction k as [|k IH]; intros rc; [reflexivity|].
  change (seq 1 (S k)) with (1%nat :: seq 2 k).
  simpl. rewrite IH. f_equal.
  rewrite <- (seq_shift k 1), map_map. apply map_ext. intros i.
  do 2 f_equal. lia.
Qed.

(** ** Retries *)

(** C2.  With a retry budget [n >= 0] and a server that fails every attempt
    with 429 or 5xx, [make_request] ends, whatever bound above [n] is put on
    the number of exchanges, by raising [HttpError "Retries Exceeded"]; it
    has then made [n + 1] exchanges and [n] waits, and the error carries the
    status and the body of the last failure, the one of attempt [n + 1]. *)
Theorem retries_exhausted a (w : @World T) :
  0 <= a_num_retries a ->
  (forall t ctx rq, retryable_failure (opener_open t ctx rq).1) ->
  let f := (prologue a w).1 in
  let n := Z.to_nat (a_num_retries a) in
  exists s payload text t' w',
    opener_open
      (after_attempts opener_open (f_ssl_context f) (f_request f) n (net w))
      (f_ssl_context f) (f_request f)
      = (HTTPError_raised (Some s) payload text, t') /\
    (forall fuel, (n < fuel)%nat ->
       make_request' fuel a w
         = (Raise (Raise_HttpError
                     (mkHttpError "Retries Exceeded" (Some s) payload)), w')) /\
    exists evs : list Event,
      log w' = (log w ++ evs)%list /\
      dispatches evs = S n /\ length (sleeps evs) = n.
Proof.
  intros Hn Hall f n. subst f.
  destruct (prologue a w) as [f w1] eqn:Hp. simpl fst.
  destruct (prologue_world a w) as [Hnet Hlog].
  rewrite Hp in Hnet, Hlog. simpl in Hnet, Hlog.
  pose proof (prologue_frame a w) as Hf. rewrite Hp in Hf. simpl in Hf.
  destruct Hf as (_ & _ & _ & Hnr & _).
  pose proof (Hall (after_attempts opener_open (f_ssl_context f) (f_request f)
                      n (net w)) (f_ssl_context f) (f_request f)) as Hlast.
  destruct (opener_open _ (f_ssl_context f) (f_request f)) as [x t'] eqn:Hx.
  destruct x as [| [s|] payload text |]; simpl in Hlast; try contradiction.
  exists s, payload, text, t'.
  exists (sent f t'
            (mkWorld (heap w1)
               (after_attempts opener_open (f_ssl_context f) (f_request f)
                  n (net w1))
               (log w1 ++ retry_events f 0 n))).
  split; [reflexivity|]. split.
  - intros fuel Hfuel. unfold make_request. rewrite Hp.
    replace fuel with (n + S (fuel - S n))%nat by lia.
    rewrite loop_retries; [| subst n; lia | intros i _; apply Hall].
    rewrite Hnet.
    erewrite loop_http_error by (simpl; exact Hx).
    unfold on_http_error. rewrite Hlast.
    replace (0 + Z.of_nat n + 1 >? f_num_retries f) with true
      by (symmetry; rewrite Z.gtb_ltb; apply Z.ltb_lt; subst n; lia).
    reflexivity.
  - exists (EvCall a :: retry_events f 0 n
              ++ [EvOpen (f_ssl_context f) (f_request f)])%list.
    split; [|split].
    + simpl. rewrite Hlog, <- !app_assoc. reflexivity.
    + change (dispatches (EvCall a :: ?l)) with (dispatches l).
      rewrite dispatches_app, dispatches_retry_events.
      unfold dispatches. simpl. lia.
    + change (sleeps (EvCall a :: ?l)) with (sleeps l).
      rewrite sleeps_app, sleeps_retry_events, length_app, length_map,
        length_seq. simpl. lia.
Qed.

Lemma loop_log_extends fuel : forall f rc (w : @World T),
  exists evs : list Event, log (loop' fuel f rc w).2 = (log w ++ evs)%list.
Proof.
  induction fuel as [|fuel IH]; intros f rc w.
  - exists []. simpl. rewrite app_nil_r. reflexivity.
  - destruct (opener_open (net w) (f_ssl_context f) (f_request f))
      as [x n] eqn:Hx.
    destruct x as [status items payload|status payload text|exn].
    + destruct (is_redirect status) eqn:Hr.
      * destruct (dict_of_items items !! "Location") as [location|] eqn:Hl.
        -- rewrite (loop_redirect _ _ _ _ _ _ _ _ _ Hx Hr Hl).
           unfold make_request.
           destruct (prologue_world (redirect_args f location) (sent f n w))
             as [_ Hlog].
           destruct (prologue _ (sent f n w)) as [f' w'].
           destruct (IH f' 0 w') as [evs Hevs]. simpl in Hlog.
           eexists. rewrite Hevs, Hlog, <- !app_assoc. reflexivity.
        -- rewrite (loop_no_location _ _ _ _ _ _ _ _ Hx Hr Hl).
           eexists. reflexivity.
      * rewrite (loop_return _ _ _ _ _ _ _ _ Hx Hr). eexists. reflexivity.
    + rewrite (loop_http_error _ _ _ _ _ _ _ _ Hx).
      destruct (on_http_error f rc status payload text) as [rc' secs|e].
      * destruct (IH f rc' (emit (EvSleep secs) (sent f n w))) as [evs Hevs].
        eexists. rewrite Hevs. simpl. rewrite <- !app_assoc. reflexivity.
      * eexists. reflexivity.
    + rewrite (loop_other _ _ _ _ _ _ Hx). eexists. reflexivity.
Qed.

(** C6.  When the first [k] attempts of a call fail with 429 or 5xx and the
    budget allows [k] retries, the waits made are [2^1 * 60], ...,
    [2^k * 60] seconds, that is [2^i] minutes before the [i]-th retry, each
    right after the failed exchange; and when attempt [k + 1] is answered by
    a response that is not a redirect, that response is returned after
    exactly these waits and [k + 1] exchanges. *)
Theorem backoff_waits a (w : @World T) k :
  Z.of_nat k <= a_num_retries a ->
  let f := (prologue a w).1 in
  let after i :=
    after_attempts opener_open (f_ssl_context f) (f_request f) i (net w) in
  (forall i, (i < k)%nat ->
     retryable_failure
       (opener_open (after i) (f_ssl_context f) (f_request f)).1) ->
  let waits := map (fun i => 2 ^ Z.of_nat i * 60) (seq 1 k) in
  (forall fuel, exists evs : list Event,
     log (make_request' (k + fuel) a w).2
       = (log w ++ EvCall a :: retry_events f 0 k ++ evs)%list) /\
  sleeps (retry_events f 0 k) = waits /\
  (forall status items payload t',
     opener_open (after k) (f_ssl_context f) (f_request f)
       = (Responded status items payload, t') ->
     is_redirect status = false ->
     exists w',
       (forall fuel, (k < fuel)%nat ->
          make_request' fuel a w
            = (Return (mkHttpResponse status (dict_of_items items) payload),
               w')) /\
       sleeps (log w') = (sleeps (log w) ++ waits)%list /\
       dispatches (log w') = (dispatches (log w) + S k)%nat).
Proof.
  intros Hk f after Hall waits. subst f after waits.
  destruct (prologue a w) as [f w1] eqn:Hp. simpl fst in *.
  destruct (prologue_world a w) as [Hnet Hlog].
  rewrite Hp in Hnet, Hlog. simpl in Hnet, Hlog.
  pose proof (prologue_frame a w) as Hf. rewrite Hp in Hf. simpl in Hf.
  destruct Hf as (_ & _ & _ & Hnr & _).
  assert (Hwaits : sleeps (retry_events f 0 k)
                   = map (fun i => 2 ^ Z.of_nat i * 60) (seq 1 k)).
  { rewrite sleeps_retry_events. apply map_ext. intros i.
    rewrite Z.add_0_l. reflexivity. }
  rewrite <- Hnet in Hall.
  split; [|split].
  - intros fuel. unfold make_request. rewrite Hp.
    rewrite loop_retries; [| lia | exact Hall].
    match goal with |- context [loop' fuel f ?rc ?w'] =>
      destruct (loop_log_extends fuel f rc w') as [evs Hevs] end.
    exists evs. rewrite Hevs. simpl. rewrite Hlog, <- !app_assoc. reflexivity.
  - exact Hwaits.
  - intros status items payload t' Hx Hr. rewrite <- Hnet in Hx.
    exists (sent f t'
              (mkWorld (heap w1)
                 (after_attempts opener_open (f_ssl_context f) (f_request f)
                    k (net w1))
                 (log w1 ++ retry_events f 0 k))).
    split; [|split].
    + intros fuel Hfuel. unfold make_request. rewrite Hp.
      replace fuel with (k + S (fuel - S k))%nat by lia.
      rewrite loop_retries; [| lia | exact Hall].
      erewrite loop_return by (simpl; eauto). reflexivity.
    + simpl. rewrite Hlog, !sleeps_app, Hwaits. simpl.
      rewrite !app_nil_r. reflexivity.
    + simpl. rewrite Hlog, !dispatches_app, dispatches_retry_events.
      unfold dispatches. simpl. lia.
Qed.

(** ** Errors that end the call at once *)

Lemma append_empty_r (s : string) : s +:+ "" = s.
Proof.
  induction s as [|c s IH]; [reflexivity|].
  change (String c (s +:+ "") = String c s). rewrite IH. reflexivity.
Qed.

Lemma contains_suffix (pre s : string) : contains (pre +:+ s) s.
Proof. exists pre, "". rewrite append_empty_r. reflexivity. Qed.

Lemma make_request_unfold fuel a (w : @World T) :
  make_request' fuel a w = loop' fuel (prologue a w).1 0 (prologue a w).2.
Proof. unfold make_request. destruct (prologue a w). reflexivity. Qed.

(** C7.  When the first exchange of a call to [url] is answered by an
    [HTTPError] of status 404, [make_request] raises the 4xx [HttpError]
    straight away: one exchange, no wait, status 404, the body of the
    answer, and the message ["HTTP Error 404 " + url], which contains
    [url]. *)
Theorem not_found_names_url a (w : @World T) payload text t' :
  let f := (prologue a w).1 in
  opener_open (net w) (f_ssl_context f) (f_request f)
    = (HTTPError_raised (Some 404) payload text, t') ->
  exists m w',
    (forall fuel, (0 < fuel)%nat ->
       make_request' fuel a w
         = (Raise (Raise_HttpError (mkHttpError m (Some 404) payload)), w')) /\
    m = client_error_msg 404 (a_url a) /\
    m = "HTTP Error 404 " +:+ a_url a /\
    contains m (a_url a) /\
    log w' = (log w ++ [EvCall a; EvOpen (f_ssl_context f) (f_request f)])%list.
Proof.
  intros f Hx. subst f.
  destruct (prologue_world a w) as [Hnet Hlog].
  destruct (prologue_frame a w) as (Hurl & _).
  rewrite <- Hnet in Hx.
  exists (client_error_msg 404 (a_url a)),
         (sent (prologue a w).1 t' (prologue a w).2).
  split; [|split; [|split; [|split]]].
  - intros [|fuel] Hfuel; [lia|].
    rewrite make_request_unfold, (loop_http_error _ _ _ _ _ _ _ _ Hx).
    unfold on_http_error. simpl. rewrite Hurl. reflexivity.
  - reflexivity.
  - reflexivity.
  - apply (contains_suffix "HTTP Error 404 ").
  - simpl. rewrite Hlog, <- app_assoc. reflexivity.
Qed.

(** C3, as the code has it.  An [HTTPError] without a status ends the call
    at the first exchange, without retry or wait, as
    [HttpError "Unknown HTTP error: ..."] with no status and the body of the
    error.  A failure that the opener raises as any other exception
    (connection refused, TLS handshake failure: [URLError], not [HTTPError])
    is not caught by the [except] clause: it reaches the caller as it is,
    also at the first exchange and without retry. *)
Theorem statusless_failure_ends_call a (w : @World T) x t' :
  let f := (prologue a w).1 in
  opener_open (net w) (f_ssl_context f) (f_request f) = (x, t') ->
  let w' := sent f t' (prologue a w).2 in
  log w' = (log w ++ [EvCall a; EvOpen (f_ssl_context f) (f_request f)])%list /\
  (forall payload text, x = HTTPError_raised None payload text ->
     forall fuel, (0 < fuel)%nat ->
       make_request' fuel a w
         = (Raise (Raise_HttpError
                     (mkHttpError ("Unknown HTTP error: " +:+ text) None payload)),
            w')) /\
  (forall exn, x = Other_raised exn ->
     forall fuel, (0 < fuel)%nat ->
       make_request' fuel a w = (Raise (Raise_other exn), w')).
Proof.
  intros f Hx w'. subst f w'.
  destruct (prologue_world a w) as [Hnet Hlog].
  rewrite <- Hnet in Hx.
  split; [|split].
  - simpl. rewrite Hlog, <- app_assoc. reflexivity.
  - intros payload text -> [|fuel] Hfuel; [lia|].
    rewrite make_request_unfold, (loop_http_error _ _ _ _ _ _ _ _ Hx).
    reflexivity.
  - intros exn -> [|fuel] Hfuel; [lia|].
    rewrite make_request_unfold, (loop_other _ _ _ _ _ _ Hx). reflexivity.
Qed.

(** ** What can be returned *)

Lemma loop_return_inv fuel : forall f rc (w : @World T) r,
  (loop' fuel f rc w).1 = Return r ->
  is_redirect (status_code r) = false /\
  exists t ctx rq items t',
    opener_open t ctx rq = (Responded (status_code r) items (body r), t') /\
    headers r = dict_of_items items.
Proof.
  induction fuel as [|fuel IH]; intros f rc w r; [discriminate|].
  destruct (opener_open (net w) (f_ssl_context f) (f_request f))
    as [x n] eqn:Hx.
  destruct x as [status items payload|status payload text|exn].
  - destruct (is_redirect status) eqn:Hr.
    + destruct (dict_of_items items !! "Location") as [location|] eqn:Hl.
      * rewrite (loop_redirect _ _ _ _ _ _ _ _ _ Hx Hr Hl), make_request_unfold.
        apply IH.
      * rewrite (loop_no_location _ _ _ _ _ _ _ _ Hx Hr Hl). discriminate.
    + rewrite (loop_return _ _ _ _ _ _ _ _ Hx Hr). simpl.
      intros [= <-]. simpl. split; [exact Hr|]. eauto 10.
  - rewrite (loop_http_error _ _ _ _ _ _ _ _ Hx).
    destruct (on_http_error f rc status payload text); [apply IH|discriminate].
  - rewrite (loop_other _ _ _ _ _ _ Hx). discriminate.
Qed.

(** ** The Content-Type header *)


End Properties.

(** * The theorems at work on the example servers *)

(** C2 at work: budget 3, a server that always answers 429. *)
Lemma retries_exhausted_witness :
  exists w',
    (forall fuel, (3 < fuel)%nat ->
       make_request always_429 fuel (get_x None 3 false) (world0 ∅)
         = (Raise (Raise_HttpError
                     (mkHttpError "Retries Exceeded" (Some 429) [])), w')) /\
    exists evs : list Event,
      log w' = evs /\ dispatches evs = 4%nat /\ length (sleeps evs) = 3%nat.
Proof.
  destruct (retries_exhausted always_429 (get_x None 3 false) (world0 ∅))
    as (s & payload & text & t' & w' & Hx & Hrun & evs & Hlog & Hd & Hs).
  - vm_compute. discriminate.
  - intros t ctx rq. destruct t; reflexivity.
  - vm_compute in Hx. injection Hx as <- <- _ _.
    exists w'. split; [exact Hrun|].
    exists evs. repeat split; assumption.
Defined.

(** C6 at work: 503 twice, then 200. *)
Lemma backoff_waits_witness :
  exists w',
    (forall fuel, (2 < fuel)%nat ->
       make_request flaky_then_ok fuel (get_x None 3 false) (world0 ∅)
         = (Return (mkHttpResponse 200
                      {["Content-Type" := "application/json"]}
                      [Byte.x7b; Byte.x7d]), w')) /\
    sleeps (log w') = [2 ^ 1 * 60; 2 ^ 2 * 60] /\
    dispatches (log w') = 3%nat.
Proof.
  destruct (backoff_waits flaky_then_ok (get_x None 3 false) (world0 ∅) 2)
    as (_ & _ & Hend).
  - vm_compute. discriminate.
  - intros i Hi. destruct i as [|[|i]]; [reflexivity|reflexivity|lia].
  - destruct (Hend 200 [("Content-Type", "application/json")]
                [Byte.x7b; Byte.x7d] 3%nat eq_refl eq_refl)
      as (w' & Hrun & Hsleeps & Hcount).
    exists w'. split; [exact Hrun|]. split; [exact Hsleeps|exact Hcount].
Defined.

(** C7 at work. *)
Lemma not_found_names_url_witness :
  exists w',
    (forall fuel, (0 < fuel)%nat ->
       make_request not_found fuel (get_x None 3 false) (world0 ∅)
         = (Raise (Raise_HttpError
                     (mkHttpError "HTTP Error 404 https://x.example/a"
                                  (Some 404) [])), w')) /\
    contains "HTTP Error 404 https://x.example/a" url_x /\
    dispatches (log w') = 1%nat /\ sleeps (log w') = [].
Proof.
  destruct (not_found_names_url not_found (get_x None 3 false) (world0 ∅)
              [] "HTTP Error 404" 1%nat eq_refl)
    as (m & w' & Hrun & _ & -> & Hin & Hlog).
  exists w'. split; [exact Hrun|]. split; [exact Hin|].
  rewrite Hlog. split; reflexivity.
Defined.

(** C3 at work: an [HTTPError] without status is turned into an
    [HttpError]; a refused connection is not. *)
Lemma statusless_failure_ends_call_witness :
  (forall fuel, (0 < fuel)%nat ->
     (make_request statusless fuel (get_x None 3 false) (world0 ∅)).1
       = Raise (Raise_HttpError
                  (mkHttpError "Unknown HTTP error: HTTP Error None: " None []))) /\
  (forall fuel, (0 < fuel)%nat ->
     (make_request refusing fuel (get_x None 3 false) (world0 ∅)).1
       = Raise (Raise_other "URLError: [Errno 111] Connection refused")).
Proof.
  split; intros fuel Hfuel.
  - destruct (statusless_failure_ends_call statusless (get_x None 3 false)
                (world0 ∅) _ 1%nat eq_refl) as (_ & Hhttp & _).
    rewrite (Hhttp _ _ eq_refl fuel Hfuel). reflexivity.
  - destruct (statusless_failure_ends_call refusing (get_x None 3 false)
                (world0 ∅) _ 1%nat eq_refl) as (_ & _ & Hother).
    rewrite (Hother _ eq_refl fuel Hfuel). reflexivity.
Defined.

(** C3 as stated fails: a refused connection carries no status code, and
    the call ends with the opener's own exception, not with an
    [HttpError]. *)
Lemma refused_connection_is_not_classified :
  (make_request refusing 5 (get_x None 3 false) (world0 ∅)).1
    = Raise (Raise_other "URLError: [Errno 111] Connection refused") /\
  forall e,
    (make_request refusing 5 (get_x None 3 false) (world0 ∅)).1
      <> Raise (Raise_HttpError e).
Proof. split; [reflexivity|]. intros e. vm_compute. discriminate. Qed.


(** * Further properties of [make_request] *)

Section Behaviour.

Context {T : Type}.
Variable opener_open : T -> SSLContext -> Request -> Exchange * T.

Abbreviation run_loop := (loop opener_open).
Abbreviation run := (make_request opener_open).

(** ** The handler of [HTTPError] *)

Lemma on_http_error_retry f rc status payload text rc' seconds :
  on_http_error f rc status payload text = Retry rc' seconds ->
  rc' = rc + 1 /\ seconds = 2 ^ (rc + 1) * 60 /\ rc + 1 <= f_num_retries f /\
  exists s, status = Some s /\ is_retryable s = true.
Proof.
  unfold on_http_error. destruct status as [s|]; [|discriminate].
  destruct (is_retryable s) eqn:Hs.
  - destruct (rc + 1 >? f_num_retries f) eqn:Hgt; [discriminate|].
    intros [= <- <-]. rewrite Z.gtb_ltb in Hgt. apply Z.ltb_ge in Hgt.
    repeat split; eauto.
  - destruct (is_client_error s); discriminate.
Qed.

Lemma on_http_error_fail f rc status payload text e :
  on_http_error f rc status payload text = Fail e ->
  raised_by_handler e /\ err_status_code e = status /\ err_body e = payload.
Proof.
  unfold on_http_error, raised_by_handler. destruct status as [s|].
  - destruct (is_retryable s) eqn:Hs.
    + destruct (rc + 1 >? f_num_retries f); [|discriminate].
      intros [= <-]. simpl. rewrite Hs. auto.
    + destruct (is_client_error s) eqn:Hc; intros [= <-]; simpl;
        rewrite Hs, Hc; eauto.
  - intros [= <-]. simpl. eauto.
Qed.

(** ** Calls that end at the first exchange *)

(** X1.  A response that is not a 3xx is handed back as it is: same status
    and body, the header items as a dictionary; one exchange, no wait. *)
Theorem success_passthrough a (w : @World T) status items payload t' :
  let f := (prologue a w).1 in
  opener_open (net w) (f_ssl_context f) (f_request f)
    = (Responded status items payload, t') ->
  is_redirect status = false ->
  forall fuel, (0 < fuel)%nat ->
    run fuel a w
      = (Return (mkHttpResponse status (dict_of_items items) payload),
         sent f t' (prologue a w).2) /\
    log (sent f t' (prologue a w).2)
      = (log w ++ [EvCall a; EvOpen (f_ssl_context f) (f_request f)])%list.
Proof.
  intros f Hx Hr [|fuel] Hfuel; [lia|]. subst f.
  destruct (prologue_world a w) as [Hnet Hlog]. rewrite <- Hnet in Hx.
  rewrite make_request_unfold, (loop_return _ _ _ _ _ _ _ _ _ Hx Hr).
  split; [reflexivity|]. simpl. rewrite Hlog, <- app_assoc. reflexivity.
Qed.

(** X2.  A 4xx other than 429 ends the call at once, whatever the retry
    budget: one exchange, no wait, an [HttpError] with that status and
    body.  Unless the status is 404 the message is ["HTTP Error <status>"]
    and does not depend on the url. *)
Theorem client_error_is_final a (w : @World T) s payload text t' :
  let f := (prologue a w).1 in
  opener_open (net w) (f_ssl_context f) (f_request f)
    = (HTTPError_raised (Some s) payload text, t') ->
  400 <= s < 500 -> s <> 429 ->
  forall fuel, (0 < fuel)%nat ->
    run fuel a w
      = (Raise (Raise_HttpError
                  (mkHttpError (client_error_msg s (a_url a)) (Some s) payload)),
         sent f t' (prologue a w).2) /\
    log (sent f t' (prologue a w).2)
      = (log w ++ [EvCall a; EvOpen (f_ssl_context f) (f_request f)])%list /\
    (s <> 404 -> client_error_msg s (a_url a) = "HTTP Error " +:+ str_of_int s).
Proof.
  intros f Hx Hs H429 [|fuel] Hfuel; [lia|]. subst f.
  destruct (prologue_world a w) as [Hnet Hlog].
  destruct (prologue_frame a w) as (Hurl & _).
  rewrite <- Hnet in Hx.
  rewrite make_request_unfold, (loop_http_error _ _ _ _ _ _ _ _ _ Hx).
  unfold on_http_error, is_retryable, is_client_error.
  replace (s =? 429) with false by (symmetry; apply Z.eqb_neq; exact H429).
  replace (500 <=? s) with false by (symmetry; apply Z.leb_gt; lia).
  replace (400 <=? s) with true by (symmetry; apply Z.leb_le; lia).
  replace (s <? 500) with true by (symmetry; apply Z.ltb_lt; lia).
  simpl. rewrite Hurl. split; [reflexivity|]. split.
  - rewrite Hlog, <- app_assoc. reflexivity.
  - intros H404. unfold client_error_msg.
    replace (s =? 404) with false by (symmetry; apply Z.eqb_neq; exact H404).
    reflexivity.
Qed.

(** X3.  With a budget of zero or less, negative numbers included, the
    first 429 or 5xx already raises ["Retries Exceeded"]: one exchange and
    no wait. *)
Theorem no_budget_no_retry a (w : @World T) s payload text t' :
  let f := (prologue a w).1 in
  opener_open (net w) (f_ssl_context f) (f_request f)
    = (HTTPError_raised (Some s) payload text, t') ->
  is_retryable s = true ->
  a_num_retries a <= 0 ->
  forall fuel, (0 < fuel)%nat ->
    run fuel a w
      = (Raise (Raise_HttpError (mkHttpError "Retries Exceeded" (Some s) payload)),
         sent f t' (prologue a w).2) /\
    sleeps (log (sent f t' (prologue a w).2)) = sleeps (log w).
Proof.
  intros f Hx Hs Hn [|fuel] Hfuel; [lia|]. subst f.
  destruct (prologue_world a w) as [Hnet Hlog].
  destruct (prologue_frame a w) as (_ & _ & _ & Hnr & _).
  rewrite <- Hnet in Hx.
  rewrite make_request_unfold, (loop_http_error _ _ _ _ _ _ _ _ _ Hx).
  unfold on_http_error. rewrite Hs, Hnr.
  replace (0 + 1 >? a_num_retries a) with true
    by (symmetry; rewrite Z.gtb_ltb; apply Z.ltb_lt; lia).
  split; [reflexivity|]. simpl.
  rewrite Hlog, !sleeps_app. simpl. rewrite !app_nil_r. reflexivity.
Qed.

(** ** Calls without redirect *)

Lemma loop_without_redirect :
  (forall t ctx rq, ~ followable_redirect (opener_open t ctx rq).1) ->
  forall fuel f rc (w : @World T),
    (Z.to_nat (f_num_retries f - rc) < fuel)%nat ->
    exists k,
      rc + Z.of_nat k <= Z.max rc (f_num_retries f) /\
      (run_loop fuel f rc w).1 <> OutOfFuel /\
      heap (run_loop fuel f rc w).2 = heap w /\
      log (run_loop fuel f rc w).2
        = (log w ++ retry_events f rc k
             ++ [EvOpen (f_ssl_context f) (f_request f)])%list.
Proof.
  intros Hno. induction fuel as [|fuel IH]; intros f rc w Hfuel; [lia|].
  pose proof (Hno (net w) (f_ssl_context f) (f_request f)) as Hhere.
  destruct (opener_open (net w) (f_ssl_context f) (f_request f))
    as [x n] eqn:Hx.
  destruct x as [status items payload|status payload text|exn].
  - destruct (is_redirect status) eqn:Hr.
    + destruct (dict_of_items items !! "Location") as [location|] eqn:Hl.
      * exfalso. apply Hhere. simpl. rewrite Hl. eauto.
      * rewrite (loop_no_location _ _ _ _ _ _ _ _ _ Hx Hr Hl).
        exists 0%nat. simpl. repeat split; [lia|discriminate].
    + rewrite (loop_return _ _ _ _ _ _ _ _ _ Hx Hr).
      exists 0%nat. simpl. repeat split; [lia|discriminate].
  - rewrite (loop_http_error _ _ _ _ _ _ _ _ _ Hx).
    destruct (on_http_error f rc status payload text) as [rc' secs|e] eqn:Hh.
    + apply on_http_error_retry in Hh. destruct Hh as (-> & -> & Hle & _).
      destruct (IH f (rc + 1) (emit (EvSleep (2 ^ (rc + 1) * 60)) (sent f n w)))
        as (k & Hk & Hend & Hheap & Hlog); [lia|].
      exists (S k). split; [lia|]. split; [exact Hend|].
      split; [exact Hheap|].
      rewrite Hlog. simpl. rewrite <- !app_assoc. reflexivity.
    + exists 0%nat. simpl. repeat split; [lia|discriminate].
  - rewrite (loop_other _ _ _ _ _ _ _ Hx).
    exists 0%nat. simpl. repeat split; [lia|discriminate].
Qed.

(** X4.  Against a server that never answers with a 3xx carrying
    [Location], a call with budget [n] ends within [max n 0 + 1] exchanges,
    and all it does is send one and the same request through one and the
    same TLS context: [k <= max n 0] times followed by the [i]-th wait of
    [2^i] minutes, then once more. *)
Theorem call_without_redirect a (w : @World T) fuel :
  (forall t ctx rq, ~ followable_redirect (opener_open t ctx rq).1) ->
  (Z.to_nat (a_num_retries a) < fuel)%nat ->
  let f := (prologue a w).1 in
  (run fuel a w).1 <> OutOfFuel /\
  exists k,
    Z.of_nat k <= Z.max 0 (a_num_retries a) /\
    log (run fuel a w).2
      = (log w ++ EvCall a :: retry_events f 0 k
           ++ [EvOpen (f_ssl_context f) (f_request f)])%list /\
    dispatches (retry_events f 0 k ++ [EvOpen (f_ssl_context f) (f_request f)])
      = S k /\
    sleeps (retry_events f 0 k ++ [EvOpen (f_ssl_context f) (f_request f)])
      = map (fun i => 2 ^ Z.of_nat i * 60) (seq 1 k).
Proof.
  intros Hno Hfuel f. subst f. rewrite make_request_unfold.
  destruct (prologue_world a w) as [_ Hlog].
  destruct (prologue_frame a w) as (_ & _ & _ & Hnr & _).
  destruct (loop_without_redirect Hno fuel (prologue a w).1 0 (prologue a w).2)
    as (k & Hk & Hend & _ & Hevs).
  { rewrite Hnr, Z.sub_0_r. exact Hfuel. }
  split; [exact Hend|]. exists k. rewrite Hnr in Hk.
  split; [lia|]. split; [|split].
  - rewrite Hevs, Hlog, <- app_assoc. reflexivity.
  - rewrite dispatches_app, dispatches_retry_events. unfold dispatches.
    simpl. lia.
  - rewrite sleeps_app, sleeps_retry_events. simpl. rewrite app_nil_r.
    apply map_ext. intros i. rewrite Z.add_0_l. reflexivity.
Qed.

Lemma total_wait_app (xs ys : list Event) :
  total_wait (xs ++ ys) = total_wait xs + total_wait ys.
Proof.
  unfold total_wait. rewrite sleeps_app.
  induction (sleeps xs) as [|z zs IH]; simpl; [reflexivity|]. rewrite IH. lia.
Qed.

Lemma total_wait_retry_events f k : forall rc,
  0 <= rc ->
  total_wait (retry_events f rc k)
    = 60 * (2 ^ (rc + Z.of_nat k + 1) - 2 ^ (rc + 1)).
Proof.
  induction k as [|k IH]; intros rc Hrc.
  - unfold total_wait. simpl. rewrite Z.add_0_r. lia.
  - change (total_wait (retry_events f rc (S k)))
      with (2 ^ (rc + 1) * 60 + total_wait (retry_events f (rc + 1) k)).
    rewrite IH by lia.
    replace (rc + 1 + Z.of_nat k + 1) with (rc + Z.of_nat (S k) + 1) by lia.
    replace (rc + 1 + 1) with (Z.succ (rc + 1)) by lia.
    rewrite Z.pow_succ_r by lia. lia.
Qed.

(** X5.  Without redirects a call with budget [n] blocks in [sleep] for at
    most [60 * (2^(max n 0 + 1) - 2)] seconds in all: 14 minutes for the
    default budget of 3. *)
Theorem total_wait_bounded a (w : @World T) fuel :
  (forall t ctx rq, ~ followable_redirect (opener_open t ctx rq).1) ->
  (Z.to_nat (a_num_retries a) < fuel)%nat ->
  exists evs : list Event,
    log (run fuel a w).2 = (log w ++ evs)%list /\
    0 <= total_wait evs <= 60 * (2 ^ (Z.max 0 (a_num_retries a) + 1) - 2).
Proof.
  intros Hno Hfuel. rewrite make_request_unfold.
  destruct (prologue_world a w) as [_ Hlog].
  destruct (prologue_frame a w) as (_ & _ & _ & Hnr & _).
  destruct (loop_without_redirect Hno fuel (prologue a w).1 0 (prologue a w).2)
    as (k & Hk & _ & _ & Hevs).
  { rewrite Hnr, Z.sub_0_r. exact Hfuel. }
  rewrite Hnr in Hk.
  exists (EvCall a :: retry_events (prologue a w).1 0 k
            ++ [EvOpen (f_ssl_context (prologue a w).1)
                       (f_request (prologue a w).1)])%list.
  split.
  - rewrite Hevs, Hlog, <- app_assoc. reflexivity.
  - change (total_wait (EvCall a :: ?l)) with (total_wait l).
    rewrite total_wait_app, total_wait_retry_events by lia.
    unfold total_wait at 2. simpl. rewrite Z.add_0_r.
    assert (2 ^ 1 <= 2 ^ (0 + Z.of_nat k + 1)
            <= 2 ^ (Z.max 0 (a_num_retries a) + 1)).
    { split; apply Z.pow_le_mono_r; lia. }
    change (2 ^ (0 + 1)) with 2. change (2 ^ 1) with 2 in H. lia.
Qed.

(** ** Calls with finitely many redirects *)

Lemma loop_terminates (hops_left : T -> nat) :
  (forall t ctx rq,
     (followable_redirect (opener_open t ctx rq).1 ->
      (hops_left (opener_open t ctx rq).2 < hops_left t)%nat) /\
     (hops_left (opener_open t ctx rq).2 <= hops_left t)%nat) ->
  forall fuel f rc (w : @World T),
    (Z.to_nat (f_num_retries f - rc) + 1 + 4 * hops_left (net w) <= fuel)%nat ->
    (run_loop fuel f rc w).1 <> OutOfFuel.
Proof.
  intros Hmu. induction fuel as [|fuel IH]; intros f rc w Hfuel; [lia|].
  destruct (Hmu (net w) (f_ssl_context f) (f_request f)) as [Hlt Hle].
  destruct (opener_open (net w) (f_ssl_context f) (f_request f))
    as [x n] eqn:Hx. simpl in Hlt, Hle.
  destruct x as [status items payload|status payload text|exn].
  - destruct (is_redirect status) eqn:Hr.
    + destruct (dict_of_items items !! "Location") as [location|] eqn:Hl.
      * rewrite (loop_redirect _ _ _ _ _ _ _ _ _ _ Hx Hr Hl),
          make_request_unfold.
        destruct (prologue_world (redirect_args f location) (sent f n w))
          as [Hnet _].
        destruct (prologue_frame (redirect_args f location) (sent f n w))
          as (_ & _ & _ & Hnr & _).
        apply IH. rewrite Hnr, Hnet. simpl.
        assert (hops_left n < hops_left (net w))%nat
          by (apply Hlt; simpl; rewrite Hl; eauto).
        unfold default_num_retries. lia.
      * rewrite (loop_no_location _ _ _ _ _ _ _ _ _ Hx Hr Hl). discriminate.
    + rewrite (loop_return _ _ _ _ _ _ _ _ _ Hx Hr). discriminate.
  - rewrite (loop_http_error _ _ _ _ _ _ _ _ _ Hx).
    destruct (on_http_error f rc status payload text) as [rc' secs|e] eqn:Hh;
      [|discriminate].
    apply on_http_error_retry in Hh. destruct Hh as (-> & -> & Hbudget & _).
    apply IH. simpl. lia.
  - rewrite (loop_other _ _ _ _ _ _ _ Hx). discriminate.
Qed.

(** X6.  When the redirects of the server come to an end, so does the call.
    If some count of redirects left, read off the server's state, goes down
    with every followable redirect and never goes up, then a call with
    budget [n] ends within [max n 0 + 1 + 4 * count] exchanges: [n + 1] for
    the first hop and 4 for each later one. *)
Theorem finite_redirect_chain_terminates (hops_left : T -> nat) a (w : @World T)
    fuel :
  (forall t ctx rq,
     (followable_redirect (opener_open t ctx rq).1 ->
      (hops_left (opener_open t ctx rq).2 < hops_left t)%nat) /\
     (hops_left (opener_open t ctx rq).2 <= hops_left t)%nat) ->
  (Z.to_nat (a_num_retries a) + 1 + 4 * hops_left (net w) <= fuel)%nat ->
  (run fuel a w).1 <> OutOfFuel /\
  forall more, run (fuel + more) a w = run fuel a w.
Proof.
  intros Hmu Hfuel.
  assert (Hend : (run fuel a w).1 <> OutOfFuel).
  { rewrite make_request_unfold.
    destruct (prologue_world a w) as [Hnet _].
    destruct (prologue_frame a w) as (_ & _ & _ & Hnr & _).
    apply (loop_terminates hops_left Hmu). rewrite Hnr, Hnet, Z.sub_0_r.
    exact Hfuel. }
  split; [exact Hend|].
  intros more. apply make_request_fuel_mono. exact Hend.
Qed.

(** ** The store of dictionaries *)

Lemma prologue_establishes a (w : @World T) :
  headers_in_store a w ->
  let f := (prologue a w).1 in
  heap (prologue a w).2 !! f_headers f = Some (r_headers (f_request f)) /\
  is_Some (r_headers (f_request f) !! "Content-Type") /\
  r_data (f_request f) = f_data f /\ r_method (f_request f) = f_method f /\
  f_data f = a_data a /\ f_method f = a_method a.
Proof.
  unfold headers_in_store. destruct (a_headers a) as [l|] eqn:Ha.
  - intros [d Hd]. destruct (d !! "Content-Type") as [v|] eqn:Hv.
    + rewrite (prologue_present a w l d v Ha Hd Hv). simpl.
      repeat split; eauto.
    + rewrite (prologue_absent a w l d Ha Hd Hv). simpl.
      rewrite !lookup_insert_eq. repeat split; eauto.
  - intros _. rewrite (prologue_none a w Ha). simpl.
    rewrite lookup_insert_eq, lookup_singleton_eq. repeat split; eauto.
Qed.

Lemma run_heap fuel a (w : @World T) :
  headers_in_store a w ->
  heap (run fuel a w).2 = heap (prologue a w).2.
Proof.
  intros Hv. rewrite make_request_unfold.
  destruct (prologue_establishes a w Hv) as (Hd & Hct & Hdata & Hm & _).
  apply (loop_frame opener_open fuel _ 0 _ _ Hd Hct Hdata eq_refl Hm).
Qed.

(** X7.  A caller who passes a dictionary that has the key
    ["Content-Type"] gets it back untouched, and so is every other
    dictionary: the store after the call is the store before it, whatever
    the server answers and however the call ends. *)
Theorem explicit_content_type_leaves_store fuel a (w : @World T) l d v :
  a_headers a = Some l ->
  heap w !! l = Some d ->
  d !! "Content-Type" = Some v ->
  heap (run fuel a w).2 = heap w.
Proof.
  intros Ha Hd Hv. rewrite run_heap.
  - rewrite (prologue_present a w l d v Ha Hd Hv). reflexivity.
  - unfold headers_in_store. rewrite Ha. eauto.
Qed.

(** X8.  The call writes to no dictionary but the one it is given: every
    other dictionary of the store has the same contents afterwards.  When
    no dictionary is given the one that the call makes for itself is a new
    object, which holds the default [Content-Type] and nothing else. *)
Theorem other_dictionaries_untouched fuel a (w : @World T) :
  headers_in_store a w ->
  (forall l' d, a_headers a <> Some l' -> heap w !! l' = Some d ->
     heap (run fuel a w).2 !! l' = Some d) /\
  (a_headers a = None ->
     let l := f_headers (prologue a w).1 in
     heap w !! l = None /\
     heap (run fuel a w).2 !! l
       = Some {["Content-Type" := content_type_default]}).
Proof.
  intros Hv. rewrite (run_heap fuel a w Hv). split.
  - intros l' d Hne Hd. unfold headers_in_store in Hv.
    destruct (a_headers a) as [l|] eqn:Ha.
    + destruct Hv as [d0 Hd0].
      assert (l <> l') by congruence.
      destruct (d0 !! "Content-Type") as [v|] eqn:Hct.
      * rewrite (prologue_present a w l d0 v Ha Hd0 Hct). exact Hd.
      * rewrite (prologue_absent a w l d0 Ha Hd0 Hct). simpl.
        rewrite lookup_insert_ne by assumption. exact Hd.
    + rewrite (prologue_none a w Ha). simpl.
      rewrite lookup_insert_ne; [exact Hd|].
      intros Heq. pose proof (is_fresh (dom (heap w))) as Hfresh.
      apply Hfresh. rewrite Heq. apply elem_of_dom. eauto.
  - intros Ha. rewrite (prologue_none a w Ha). simpl. split.
    + apply not_elem_of_dom. apply is_fresh.
    + apply lookup_insert_eq.
Qed.

(** ** What a call can raise *)

Lemma loop_raises fuel : forall f rc (w : @World T),
  match (run_loop fuel f rc w).1 with
  | Raise (Raise_HttpError e) =>
      raised_by_handler e /\
      exists t ctx rq text t',
        opener_open t ctx rq
          = (HTTPError_raised (err_status_code e) (err_body e) text, t')
  | Raise (Raise_KeyError key) => key = "Location"
  | Raise (Raise_other exn) =>
      exists t ctx rq t', opener_open t ctx rq = (Other_raised exn, t')
  | _ => True
  end.
Proof.
  induction fuel as [|fuel IH]; intros f rc w; [exact I|].
  destruct (opener_open (net w) (f_ssl_context f) (f_request f))
    as [x n] eqn:Hx.
  destruct x as [status items payload|status payload text|exn].
  - destruct (is_redirect status) eqn:Hr.
    + destruct (dict_of_items items !! "Location") as [location|] eqn:Hl.
      * rewrite (loop_redirect _ _ _ _ _ _ _ _ _ _ Hx Hr Hl),
          make_request_unfold. apply IH.
      * rewrite (loop_no_location _ _ _ _ _ _ _ _ _ Hx Hr Hl). reflexivity.
    + rewrite (loop_return _ _ _ _ _ _ _ _ _ Hx Hr). exact I.
  - rewrite (loop_http_error _ _ _ _ _ _ _ _ _ Hx).
    destruct (on_http_error f rc status payload text) as [rc' secs|e] eqn:Hh;
      [apply IH|].
    apply on_http_error_fail in Hh. destruct Hh as (Hshape & Hst & Hbody).
    simpl. split; [exact Hshape|]. rewrite Hst, Hbody. eauto 10.
  - rewrite (loop_other _ _ _ _ _ _ _ Hx). simpl. eauto 10.
Qed.

(** X12.  Every [HttpError] that a call raises carries the status and the
    body of an [HTTPError] that the opener raised, and its message goes with
    the status: no status, ["Unknown HTTP error: ..."]; 429 or 5xx,
    ["Retries Exceeded"]; another 4xx, ["HTTP Error <status>"] with or
    without a url; anything else, ["Unknown HTTP Error <status>"].  The only
    [KeyError] that the loop itself can raise is the one for ["Location"]. *)
Theorem raised_exceptions fuel a (w : @World T) :
  (forall e, (run fuel a w).1 = Raise (Raise_HttpError e) ->
     raised_by_handler e /\
     exists t ctx rq text t',
       opener_open t ctx rq
         = (HTTPError_raised (err_status_code e) (err_body e) text, t')) /\
  (forall key, (run fuel a w).1 = Raise (Raise_KeyError key) ->
     key = "Location").
Proof.
  rewrite make_request_unfold.
  pose proof (loop_raises fuel (prologue a w).1 0 (prologue a w).2) as H.
  split; intros ? Heq; rewrite Heq in H; exact H.
Qed.

End Behaviour.

(** * The further properties at work *)

(** X1 at work: a 200 with its items and body. *)
Lemma success_passthrough_witness :
  (make_request always_ok 1 (get_x None 3 false) (world0 ∅)).1
    = Return (mkHttpResponse 200 {["Content-Type" := "application/json"]}
                             [Byte.x7b; Byte.x7d]).
Proof.
  destruct (success_passthrough always_ok (get_x None 3 false) (world0 ∅)
              200 [("Content-Type", "application/json")] [Byte.x7b; Byte.x7d]
              1%nat eq_refl eq_refl 1%nat) as [Hrun _]; [lia|].
  rewrite Hrun. reflexivity.
Defined.

(** X2 at work: a 403 with a budget of 3. *)
Lemma client_error_is_final_witness :
  (make_request forbidden 5 (get_x None 3 false) (world0 ∅)).1
    = Raise (Raise_HttpError (mkHttpError "HTTP Error 403" (Some 403) [])).
Proof.
  destruct (client_error_is_final forbidden (get_x None 3 false) (world0 ∅)
              403 [] "HTTP Error 403" 1%nat eq_refl ltac:(lia) ltac:(lia)
              5%nat ltac:(lia)) as (Hrun & _).
  rewrite Hrun. reflexivity.
Defined.

(** X3 at work: a budget of -1. *)
Lemma no_budget_no_retry_witness :
  (make_request always_429 5 (get_x None (-1) false) (world0 ∅)).1
    = Raise (Raise_HttpError (mkHttpError "Retries Exceeded" (Some 429) [])).
Proof.
  destruct (no_budget_no_retry always_429 (get_x None (-1) false) (world0 ∅)
              429 [] "HTTP Error 429" 1%nat eq_refl eq_refl ltac:(simpl; lia)
              5%nat ltac:(lia)) as [Hrun _].
  rewrite Hrun. reflexivity.
Defined.

Lemma flaky_then_ok_never_redirects t ctx rq :
  ~ followable_redirect (flaky_then_ok t ctx rq).1.
Proof.
  destruct t as [|[|t]]; simpl; try tauto.
  destruct t; simpl; intros [H _]; discriminate.
Qed.

Lemma always_429_never_redirects t ctx rq :
  ~ followable_redirect (always_429 t ctx rq).1.
Proof. destruct t; simpl; tauto. Qed.

(** X4 at work: 503, 503, 200 with a budget of 3. *)
Lemma call_without_redirect_witness :
  (make_request flaky_then_ok 4 (get_x None 3 false) (world0 ∅)).1 <> OutOfFuel.
Proof.
  apply (call_without_redirect flaky_then_ok (get_x None 3 false) (world0 ∅) 4
           flaky_then_ok_never_redirects).
  simpl. lia.
Defined.

(** X5 at work: the default budget against a server that always answers
    429 costs at most 14 minutes. *)
Lemma total_wait_bounded_witness :
  exists evs : list Event,
    log (make_request always_429 4 (get_x None 3 false) (world0 ∅)).2 = evs /\
    0 <= total_wait evs <= 840.
Proof.
  destruct (total_wait_bounded always_429 (get_x None 3 false) (world0 ∅) 4
              always_429_never_redirects) as (evs & Hlog & Hbound).
  - simpl. lia.
  - exists evs. split; [exact Hlog|exact Hbound].
Defined.

(** X6 at work: five redirects, then 200. *)
Lemma finite_redirect_chain_terminates_witness :
  (make_request (redirecting 5) 24 (get_x None 3 false) (world0 ∅)).1
    <> OutOfFuel.
Proof.
  apply (finite_redirect_chain_terminates (redirecting 5)
           (fun t => (5 - t)%nat) (get_x None 3 false) (world0 ∅) 24).
  - intros t ctx rq. unfold redirecting. simpl.
    destruct (Nat.ltb_spec t 5); simpl.
    + split; [intros _|]; lia.
    + split; [intros [H0 _]; discriminate|lia].
  - simpl. lia.
Defined.

(** X7 at work. *)
Lemma explicit_content_type_leaves_store_witness :
  heap (make_request moved_then_ok 5 (get_x (Some 1%positive) 3 false)
          (world0 (caller_heap explicit_headers))).2
    = caller_heap explicit_headers.
Proof.
  apply (explicit_content_type_leaves_store moved_then_ok 5
           (get_x (Some 1%positive) 3 false)
           (world0 (caller_heap explicit_headers)) 1%positive
           explicit_headers "text/plain"); vm_compute; reflexivity.
Defined.

(** X8 at work: a call without [headers] leaves the dictionary under
    reference 1 alone. *)
Lemma other_dictionaries_untouched_witness :
  heap (make_request moved_then_ok 5 (get_x None 3 false)
          (world0 (caller_heap lowercase_headers))).2 !! 1%positive
    = Some lowercase_headers.
Proof.
  apply (proj1 (other_dictionaries_untouched moved_then_ok 5
                  (get_x None 3 false)
                  (world0 (caller_heap lowercase_headers)) I)).
  - discriminate.
  - vm_compute. reflexivity.
Defined.

(** X12 at work: the error of a 404. *)
Lemma raised_exceptions_witness :
  raised_by_handler
    (mkHttpError "HTTP Error 404 https://x.example/a" (Some 404) []).
Proof.
  apply (proj1 (raised_exceptions not_found 1 (get_x None 3 false) (world0 ∅))).
  reflexivity.
Defined.

(** * The Content-Type header on the wire *)

Lemma odict_get_set k k' v (d : odict) :
  odict_get k' (odict_set k v d)
    = if String.eqb k k' then Some v else odict_get k' d.
Proof.
  induction d as [|[k0 v0] d IH]; simpl.
  - destruct (String.eqb_spec k k'); reflexivity.
  - destruct (String.eqb_spec k0 k) as [->|Hne]; simpl.
    + destruct (String.eqb_spec k k'); reflexivity.
    + rewrite IH. destruct (String.eqb_spec k0 k') as [->|Hne'].
      * destruct (String.eqb_spec k k'); [congruence|reflexivity].
      * reflexivity.
Qed.

Lemma odict_set_absent k v (d : odict) :
  odict_get k d = None -> odict_set k v d = (d ++ [(k, v)])%list.
Proof.
  induction d as [|[k0 v0] d IH]; simpl; [reflexivity|].
  destruct (String.eqb k0 k); [discriminate|].
  intros H. rewrite IH by exact H. reflexivity.
Qed.

Lemma odict_get_lookup k (d : odict) :
  odict_get k d = (list_to_map d : dict) !! k.
Proof.
  induction d as [|[k0 v0] d IH]; simpl; [symmetry; apply lookup_empty|].
  rewrite lookup_insert. destruct (String.eqb_spec k0 k) as [->|Hne].
  - rewrite decide_True by reflexivity. reflexivity.
  - rewrite decide_False by exact Hne. exact IH.
Qed.

Lemma odict_get_split k v (d : odict) :
  odict_get k d = Some v ->
  exists pre post,
    d = (pre ++ (k, v) :: post)%list /\ Forall (fun kv => kv.1 <> k) pre.
Proof.
  induction d as [|[k0 v0] d IH]; simpl; [discriminate|].
  destruct (String.eqb_spec k0 k) as [->|Hne].
  - intros [= ->]. exists [], d. split; [reflexivity|constructor].
  - intros H. destruct (IH H) as (pre & post & -> & Hpre).
    exists ((k0, v0) :: pre), post. split; [reflexivity|].
    constructor; assumption.
Qed.

Lemma capitalized_items_keep k' (items : odict) : forall acc : odict,
  Forall (fun kv => capitalize kv.1 <> k') items ->
  odict_get k' (fold_left (fun h kv => odict_set (capitalize kv.1) kv.2 h)
                          items acc)
    = odict_get k' acc.
Proof.
  induction items as [|[k0 v0] items IH]; intros acc Hall; [reflexivity|].
  inversion Hall as [|? ? Hne Hrest]; subst. simpl in *.
  rewrite IH by exact Hrest. rewrite odict_get_set.
  destruct (String.eqb_spec (capitalize k0) k'); [contradiction|reflexivity].
Qed.

(** C8, as the code has it.  The test of line 70 is on the exact key
    ["Content-Type"] and [Request] files every header under its capitalized
    name, a later item replacing an earlier one.  So: without an item under
    the exact key (or without a dictionary) the value that goes out is the
    default, and it replaces the value of any item whose name is
    [Content-Type] in another case; with an item under the exact key and no
    other item whose name differs from it in case only, the caller's value
    goes out unchanged and no default is added.  The last two parts tie the
    ordered dictionary to the stored one of [prologue]. *)
Theorem content_type_on_the_wire (caller : odict) :
  NoDup caller.*1 ->
  (odict_get "Content-Type" caller = None ->
     transmitted_content_type (Some caller) = Some content_type_default) /\
  (forall v, odict_get "Content-Type" caller = Some v ->
     Forall (fun kv => capitalize kv.1 = "Content-type" -> kv.1 = "Content-Type")
            caller ->
     transmitted_content_type (Some caller) = Some v /\
     set_default_content_type (Some caller) = caller) /\
  transmitted_content_type None = Some content_type_default /\
  (forall (T : Type) a (w : @World T) l,
     a_headers a = Some l -> heap w !! l = Some (list_to_map caller) ->
     r_headers (f_request (prologue a w).1)
       = list_to_map (set_default_content_type (Some caller))) /\
  (forall (T : Type) a (w : @World T),
     a_headers a = None ->
     r_headers (f_request (prologue a w).1)
       = list_to_map (set_default_content_type None)).
Proof.
  intros Hnodup. split; [|split; [|split; [|split]]].
  - intros Habsent. unfold transmitted_content_type, set_default_content_type.
    rewrite Habsent, (odict_set_absent _ _ _ Habsent).
    unfold Request_headers. rewrite fold_left_app. simpl.
    rewrite odict_get_set. reflexivity.
  - intros v Hv Hothers.
    unfold transmitted_content_type, set_default_content_type. rewrite Hv.
    split; [|reflexivity].
    destruct (odict_get_split _ _ _ Hv) as (pre & post & -> & Hpre).
    rewrite fmap_app, fmap_cons in Hnodup. simpl in Hnodup.
    apply NoDup_app in Hnodup. destruct Hnodup as (_ & _ & Hpost).
    apply NoDup_cons in Hpost. destruct Hpost as [Hnotin _].
    apply Forall_app in Hothers. destruct Hothers as [Hopre Hopost].
    inversion Hopost as [|? ? _ Hopost']; subst.
    unfold Request_headers. rewrite fold_left_app. simpl.
    rewrite capitalized_items_keep.
    + rewrite odict_get_set. reflexivity.
    + apply Forall_forall. intros [k0 v0] Hin Hcap. simpl in *.
      rewrite Forall_forall in Hopost'.
      assert (k0 = "Content-Type") by (apply (Hopost' (k0, v0) Hin Hcap)).
      subst k0. apply Hnotin. apply list_elem_of_fmap.
      exists ("Content-Type", v0). split; [reflexivity|exact Hin].
  - reflexivity.
  - intros T a w l Ha Hl. unfold set_default_content_type.
    rewrite odict_get_lookup.
    destruct ((list_to_map caller : dict) !! "Content-Type") as [v|] eqn:Hct.
    + rewrite (prologue_present a w l _ v Ha Hl Hct). reflexivity.
    + rewrite (prologue_absent a w l _ Ha Hl Hct). simpl.
      rewrite odict_set_absent by (rewrite odict_get_lookup; exact Hct).
      rewrite list_to_map_app. simpl. rewrite insert_empty.
      apply insert_union_singleton_r. exact Hct.
  - intros T a w Ha. rewrite (prologue_none a w Ha). simpl.
    rewrite insert_empty. reflexivity.
Qed.

(** C8 at work: the caller's own [Content-Type] next to an [Accept]. *)
Lemma content_type_on_the_wire_witness :
  transmitted_content_type
    (Some [("Accept", "*/*"); ("Content-Type", "text/plain")])
    = Some "text/plain".
Proof.
  apply (proj1 (proj2 (content_type_on_the_wire
                         [("Accept", "*/*"); ("Content-Type", "text/plain")]
                         ltac:(apply (bool_decide_unpack _); vm_compute; exact I)))
           "text/plain" eq_refl).
  repeat constructor; vm_compute; intros; congruence.
Defined.

(** C8 as stated fails: the caller supplies a Content-Type, in lower case;
    what goes out is the default, not the caller's value. *)
Lemma lowercase_content_type_is_replaced :
  has_key_nocase (list_to_map [("content-type", "text/plain")]) "Content-Type" /\
  transmitted_content_type (Some [("content-type", "text/plain")])
    = Some content_type_default /\
  transmitted_content_type (Some [("content-type", "text/plain")])
    <> Some "text/plain".
Proof.
  split; [|split].
  - exists "content-type", "text/plain". split; reflexivity.
  - reflexivity.
  - vm_compute. discriminate.
Qed.

(** * [make_request] with the opener of lines 87-89 *)

Section WithUrllib.

Context {Srv : Type}.
Variable send : Srv -> SSLContext -> Sent -> Reply * Srv.
Variable resolve : string -> string -> Redirection.

Abbreviation browse := (make_request (urllib_open send resolve)).
Abbreviation browse_loop := (loop (urllib_open send resolve)).

(** ** The ceiling on redirects *)

Lemma room_insert (visited : gmap string nat) url :
  (visits visited url < max_repeats)%nat ->
  (size visited < max_redirections)%nat ->
  (room (<[url := S (visits visited url)]> visited) < room visited)%nat.
Proof.
  unfold room, visits, max_repeats, max_redirections. intros Hrep Hred.
  assert (Hcomm : forall (m : gmap string nat) (j1 j2 : string) (z1 z2 y : nat),
            j1 <> j2 -> m !! j1 = Some z1 -> m !! j2 = Some z2 ->
            (4 - z1 + (4 - z2 + y) = 4 - z2 + (4 - z1 + y))%nat)
    by (intros; lia).
  destruct (visited !! url) as [c|] eqn:Hc; simpl in *.
  - rewrite map_size_insert_Some by eauto.
    rewrite (map_fold_delete_L _ _ url c visited (Hcomm _) Hc).
    rewrite <- (insert_delete_eq visited).
    rewrite map_fold_insert_L; [lia | apply Hcomm | apply lookup_delete_eq].
  - rewrite map_size_insert_None by exact Hc.
    rewrite map_fold_insert_L; [lia | apply Hcomm | exact Hc].
Qed.

(** The bound on the depth of [director_open] that [urllib_open] takes is
    enough: any larger one gives the same. *)
Lemma director_open_fuel fuel : forall fuel' ctx rq s visited,
  (room visited < fuel)%nat -> (room visited < fuel')%nat ->
  director_open send resolve fuel ctx rq s visited
    = director_open send resolve fuel' ctx rq s visited.
Proof.
  induction fuel as [|fuel IH]; intros [|fuel'] ctx rq s visited H H'; try lia.
  cbn [director_open].
  destruct (send s ctx rq) as [[code msg items payload|exn] s'];
    [|reflexivity].
  destruct ((200 <=? code) && (code <? 300)); [reflexivity|].
  destruct (negb (has_redirect_handler code)); [reflexivity|].
  destruct (redirect_header items) as [value|]; [|reflexivity].
  destruct (resolve (s_url rq) value) as [|newurl]; [reflexivity|].
  destruct (negb (may_follow code (s_method rq))); [reflexivity|].
  destruct ((max_repeats <=? visits visited newurl)%nat
            || (max_redirections <=? size visited)%nat) eqn:Hlim;
    [reflexivity|].
  apply orb_false_iff in Hlim. destruct Hlim as [Hrep Hred].
  apply Nat.leb_gt in Hrep, Hred.
  pose proof (room_insert visited newurl Hrep Hred).
  apply IH; lia.
Qed.

(** ** What [opener.open] can give *)

Lemma director_open_outcome fuel : forall ctx rq s visited,
  match (director_open send resolve fuel ctx rq s visited).1 with
  | Responded code _ _ => 200 <= code < 300
  | HTTPError_raised status _ _ =>
      exists code, status = Some code /\ ~ (200 <= code < 300)
  | Other_raised _ => True
  end.
Proof.
  induction fuel as [|fuel IH]; intros ctx rq s visited; [exact I|].
  cbn [director_open].
  destruct (send s ctx rq) as [[code msg items payload|exn] s']; [|exact I].
  destruct ((200 <=? code) && (code <? 300)) eqn:H2xx.
  - simpl. apply andb_true_iff in H2xx. lia.
  - assert (Hcode : ~ (200 <= code < 300))
      by (apply andb_false_iff in H2xx; lia).
    destruct (negb (has_redirect_handler code)); [simpl; eauto|].
    destruct (redirect_header items) as [value|]; [|simpl; eauto].
    destruct (resolve (s_url rq) value) as [|newurl]; [simpl; eauto|].
    destruct (negb (may_follow code (s_method rq))); [simpl; eauto|].
    destruct ((max_repeats <=? visits visited newurl)%nat
              || (max_redirections <=? size visited)%nat); [simpl; eauto|].
    apply IH.
Qed.

Lemma urllib_open_never_redirects t ctx rq :
  ~ followable_redirect (urllib_open send resolve t ctx rq).1.
Proof.
  unfold urllib_open.
  pose proof (director_open_outcome (S (room t.2)) ctx (to_sent rq) t.1 t.2)
    as H.
  destruct (director_open _ _ _ _ _ _ _) as [[code items payload| |] t'];
    simpl in *; try tauto.
  intros [Hr _]. unfold is_redirect in Hr. apply andb_true_iff in Hr. lia.
Qed.

(** The first answer decides when no redirect is followed. *)
Lemma urllib_open_raises t ctx rq code msg items payload s' :
  send t.1 ctx (to_sent rq) = (Answered code msg items payload, s') ->
  ~ (200 <= code < 300) ->
  has_redirect_handler code = false \/ redirect_header items = None ->
  urllib_open send resolve t ctx rq
    = (HTTPError code msg payload, (s', t.2)).
Proof.
  intros Hx Hcode Hno. unfold urllib_open. cbn [director_open]. rewrite Hx.
  replace ((200 <=? code) && (code <? 300)) with false
    by (symmetry; apply andb_false_iff; lia).
  destruct (has_redirect_handler code) eqn:Hh; simpl; [|reflexivity].
  destruct Hno as [Hno|Hno]; [discriminate|]. rewrite Hno. reflexivity.
Qed.


Lemma on_http_error_unknown f rc code payload text :
  code < 400 \/ 600 <= code ->
  on_http_error f rc (Some code) payload text
    = Fail (mkHttpError ("Unknown HTTP Error " +:+ str_of_int code)
                        (Some code) payload).
Proof.
  intros Hcode. unfold on_http_error, is_retryable, is_client_error.
  replace (code =? 429) with false by (symmetry; apply Z.eqb_neq; lia).
  replace ((500 <=? code) && (code <? 600)) with false
    by (symmetry; apply andb_false_iff; lia).
  replace ((400 <=? code) && (code <? 500)) with false
    by (symmetry; apply andb_false_iff; lia).
  reflexivity.
Qed.


Lemma no_handler_outside_3xx code :
  code < 300 \/ 400 <= code -> has_redirect_handler code = false.
Proof.
  intros H. unfold has_redirect_handler.
  repeat (rewrite (proj2 (Z.eqb_neq _ _)) by lia). reflexivity.
Qed.

(** ** Redirects that cannot be followed *)

(** C4, as the code has it.  A 3xx answer with neither a [Location] nor a
    [URI] header (the names taken without regard to case) is raised by the
    opener as [HTTPError], and the call ends at once with
    [HttpError "Unknown HTTP Error <status>"], carrying the status and the
    body: one call of the opener, no wait. *)
Theorem redirect_without_target a (w : @World (Srv * gmap string nat))
    code msg items payload s' :
  let f := (prologue a w).1 in
  send (net w).1 (f_ssl_context f) (to_sent (f_request f))
    = (Answered code msg items payload, s') ->
  300 <= code < 400 ->
  message_get "location" items = None ->
  message_get "uri" items = None ->
  forall fuel, (0 < fuel)%nat ->
    browse fuel a w
      = (Raise (Raise_HttpError
                  (mkHttpError ("Unknown HTTP Error " +:+ str_of_int code)
                               (Some code) payload)),
         sent f (s', (net w).2) (prologue a w).2) /\
    log (sent f (s', (net w).2) (prologue a w).2)
      = (log w ++ [EvCall a; EvOpen (f_ssl_context f) (f_request f)])%list.
Proof.
  intros f Hx Hcode Hloc Huri [|fuel] Hfuel; [lia|]. subst f.
  destruct (prologue_world a w) as [Hnet Hlog]. rewrite <- Hnet in Hx.
  assert (Hred : redirect_header items = None)
    by (unfold redirect_header; rewrite Hloc; exact Huri).
  assert (Hopen := urllib_open_raises _ _ _ _ _ _ _ _ Hx ltac:(lia)
                     (or_intror Hred)).
  rewrite make_request_unfold.
  rewrite (loop_http_error _ _ _ _ _ _ _ _ _ Hopen).
  rewrite on_http_error_unknown by lia. rewrite Hnet.
  split; [reflexivity|]. simpl. rewrite Hlog, <- app_assoc. reflexivity.
Qed.

(** ** What is returned *)

(** C5.  Every response that [make_request] returns has a status in
    [200, 299]: the opener returns no other, and turns every other answer
    into a followed redirect or an [HTTPError].  An answer whose status is
    below 200 or above 599 is raised as
    [HttpError "Unknown HTTP Error <status>"] with that status and the body,
    at whatever iteration of the loop it comes. *)
Theorem only_success_is_returned :
  (forall fuel a (w : @World (Srv * gmap string nat)) r,
     (browse fuel a w).1 = Return r -> 200 <= status_code r <= 299) /\
  (forall fuel f rc (w : @World (Srv * gmap string nat))
          code msg items payload s',
     send (net w).1 (f_ssl_context f) (to_sent (f_request f))
       = (Answered code msg items payload, s') ->
     code < 200 \/ 600 <= code ->
     browse_loop (S fuel) f rc w
       = (Raise (Raise_HttpError
                   (mkHttpError ("Unknown HTTP Error " +:+ str_of_int code)
                                (Some code) payload)),
          sent f (s', (net w).2) w)).
Proof.
  split.
  - intros fuel a w r Hret. rewrite make_request_unfold in Hret.
    destruct (loop_return_inv _ _ _ _ _ _ Hret)
      as (_ & t & ctx & rq & items & t' & Hopen & _).
    unfold urllib_open in Hopen.
    pose proof (director_open_outcome (S (room t.2)) ctx (to_sent rq) t.1 t.2)
      as Hout.
    rewrite Hopen in Hout. simpl in Hout. lia.
  - intros fuel f rc w code msg items payload s' Hx Hcode.
    assert (Hopen := urllib_open_raises _ _ _ _ _ _ _ _ Hx ltac:(lia)
              (or_introl (no_handler_outside_3xx code ltac:(lia)))).
    rewrite (loop_http_error _ _ _ _ _ _ _ _ _ Hopen).
    rewrite on_http_error_unknown by lia. reflexivity.
Qed.

(** ** The end of every call *)

Lemma browse_loop_stays fuel : forall f rc (w : @World (Srv * gmap string nat)),
  (forall key, (browse_loop fuel f rc w).1 <> Raise (Raise_KeyError key)) /\
  exists evs : list Event,
    log (browse_loop fuel f rc w).2 = (log w ++ evs)%list /\ calls evs = [].
Proof.
  induction fuel as [|fuel IH]; intros f rc w.
  - simpl. split; [discriminate|]. exists []. rewrite app_nil_r. auto.
  - pose proof (urllib_open_never_redirects (net w) (f_ssl_context f)
                  (f_request f)) as Hno.
    destruct (urllib_open send resolve (net w) (f_ssl_context f) (f_request f))
      as [x n] eqn:Hx.
    destruct x as [status items payload|status payload text|exn].
    + destruct (is_redirect status) eqn:Hr.
      * destruct (dict_of_items items !! "Location") as [location|] eqn:Hl.
        -- exfalso. apply Hno. simpl. rewrite Hl. eauto.
        -- rewrite (loop_no_location _ _ _ _ _ _ _ _ _ Hx Hr Hl).
           exfalso. revert Hr.
           pose proof (director_open_outcome (S (room (net w).2))
                         (f_ssl_context f) (to_sent (f_request f))
                         (net w).1 (net w).2) as Hout.
           unfold urllib_open in Hx. rewrite Hx in Hout. simpl in Hout.
           unfold is_redirect. intros Hr. apply andb_true_iff in Hr. lia.
      * rewrite (loop_return _ _ _ _ _ _ _ _ _ Hx Hr).
        split; [discriminate|]. eexists. split; reflexivity.
    + rewrite (loop_http_error _ _ _ _ _ _ _ _ _ Hx).
      destruct (on_http_error f rc status payload text) as [rc' secs|e].
      * destruct (IH f rc' (emit (EvSleep secs) (sent f n w)))
          as (Hkey & evs & Hlog & Hcalls).
        split; [exact Hkey|].
        exists (EvOpen (f_ssl_context f) (f_request f) :: EvSleep secs :: evs).
        split; [|exact Hcalls].
        rewrite Hlog. simpl. rewrite <- !app_assoc. reflexivity.
      * split; [discriminate|]. eexists. split; reflexivity.
    + rewrite (loop_other _ _ _ _ _ _ _ Hx).
      split; [discriminate|]. eexists. split; reflexivity.
Qed.


(** X14.  With the opener of lines 87-89 the branch of lines 144-151 never
    runs: the opener hands back no 3xx response, so whatever the server
    does and however long the call goes on, [make_request] does not call
    itself and raises no [KeyError]. *)
Theorem redirect_branch_never_runs fuel a (w : @World (Srv * gmap string nat)) :
  (forall key, (browse fuel a w).1 <> Raise (Raise_KeyError key)) /\
  exists evs : list Event,
    log (browse fuel a w).2 = (log w ++ evs)%list /\ calls evs = [a].
Proof.
  rewrite make_request_unfold.
  destruct (prologue_world a w) as [_ Hlog].
  destruct (browse_loop_stays fuel (prologue a w).1 0 (prologue a w).2)
    as (Hkey & evs & Hevs & Hcalls).
  split; [exact Hkey|]. exists (EvCall a :: evs). split.
  - rewrite Hevs, Hlog, <- app_assoc. reflexivity.
  - simpl. rewrite Hcalls. reflexivity.
Qed.

End WithUrllib.

(** * The opener at work on the example sites *)

(** C1.  A POST to [url_x] with a body, in SSL compatibility mode and with
    no retry allowed; [url_x] answers 302 with [Location: url_y], and
    [url_y] answers 200.  The opener follows the redirect itself: the
    request that reaches [url_y] is a GET without body and without
    [Content-Type], through the same TLS context; [make_request] makes one
    call of the opener, does not call itself and returns the 200.  Lines
    146-151, which would send body, method and headers again, do not
    run. *)
Theorem redirect_hop_drops_body_method_content_type :
  let run := make_request (urllib_open (site moved) absolute) 10 post_x
                          (browsing ∅) in
  run.1 = Return (mkHttpResponse 200 {["Content-Type" := "application/json"]}
                                 [Byte.x7b; Byte.x7d]) /\
  (net run.2).1
    = [(SSLv23_without_DH,
        mkSent url_x "POST" {["Content-Type" := content_type_default]}
               (Some [Byte.x7b; Byte.x7d]));
       (SSLv23_without_DH, mkSent url_y "GET" ∅ None)] /\
  calls (log run.2) = [post_x] /\
  dispatches (log run.2) = 1%nat /\
  sleeps (log run.2) = [].
Proof. vm_compute. repeat split; reflexivity. Qed.

(** C4 at work: a 302 with a [Server] header only. *)
Lemma redirect_without_target_witness :
  (make_request (urllib_open (site found_nowhere) absolute) 5
     (get_x None 3 false) (browsing ∅)).1
    = Raise (Raise_HttpError
               (mkHttpError "Unknown HTTP Error 302" (Some 302) [])).
Proof.
  edestruct (redirect_without_target (site found_nowhere) absolute
               (get_x None 3 false) (browsing ∅) 302 "Found"
               [("Server", "nginx")] []) as [Hrun _].
  - vm_compute. reflexivity.
  - lia.
  - reflexivity.
  - reflexivity.
  - exact (Nat.lt_0_succ 4).
  - rewrite Hrun. reflexivity.
Defined.

(** C4 as stated fails: this 302 has no [Location] item, yet the call does
    not fail: the opener follows the [URI] header and the 200 of [url_y] is
    returned. *)
Lemma uri_header_is_followed :
  moved_by_uri url_x = Answered 302 "Found" [("URI", url_y)] [] /\
  (make_request (urllib_open (site moved_by_uri) absolute) 5
     (get_x None 3 false) (browsing ∅)).1
    = Return (mkHttpResponse 200 {["Content-Type" := "application/json"]}
                             [Byte.x7b; Byte.x7d]) /\
  forall e,
    (make_request (urllib_open (site moved_by_uri) absolute) 5
       (get_x None 3 false) (browsing ∅)).1
      <> Raise (Raise_HttpError e).
Proof.
  split; [reflexivity|]. split; [vm_compute; reflexivity|].
  intros e. vm_compute. discriminate.
Qed.

(** C5 at work: the 200 of [url_y] is in range; an answer 102 is raised as
    unknown. *)
Lemma only_success_is_returned_witness :
  200 <= 200 <= 299 /\
  (make_request (urllib_open (site processing) absolute) 1
     (get_x None 3 false) (browsing ∅)).1
    = Raise (Raise_HttpError
               (mkHttpError "Unknown HTTP Error 102" (Some 102) [])).
Proof.
  split.
  - apply (proj1 (only_success_is_returned (site moved) absolute) 5%nat
             (get_x None 3 false) (browsing ∅)
             (mkHttpResponse 200 {["Content-Type" := "application/json"]}
                             [Byte.x7b; Byte.x7d])).
    vm_compute. reflexivity.
  - rewrite make_request_unfold.
    erewrite (proj2 (only_success_is_returned (site processing) absolute)
                0%nat _ 0 _ 102 "Processing" [] []).
    + reflexivity.
    + vm_compute. reflexivity.
    + left. lia.
Defined.


